(** * Financial advisory calculation engine

    A shallow embedding of the five calculators of
    [financial_tools_with_memory_agent.py]:
    [calculate_portfolio_allocation], [calculate_compound_interest],
    [evaluate_stock_metrics], [calculate_retirement_needs] and
    [compare_investment_options].

    Modelling conventions.
    - A request is the [args] mapping with every declared key present and of
      its declared type, hence a record.
    - Python [int] is [Z].  Python [float] is read as an exact rational [Q]:
      the decimal amounts of the specification, without binary rounding,
      overflow, infinities or NaN.  Rounding to nearest is monotone, so it
      keeps a comparison that is not strict between two amounts computed
      the same way; it does not keep an equality or a strict comparison,
      and it can turn [1 + rate] into exactly 1 for a small rate, so that
      a denominator that is not 0 in [Q] is 0.0 in the code.  The
      theorems on the order and the sign of computed amounts are stated
      with this in mind: their comparisons are not strict, and where
      such a denominator decides whether the calculator returns, they
      assume that the value the code computes is not 0, or that the
      calculator returns.
    - The one property that turns on the rounding itself, the sum of the
      allocation's dollar amounts, is stated on [Binary64]: a second
      embedding of the allocation calculator over binary64 floats.
    - A calculator either returns or raises.  The only exception the
      arithmetic of these functions can raise on well-typed arguments is
      [ZeroDivisionError] (true division by zero, zero raised to a negative
      power); no calculator contains a [try] block, so an exception raised
      inside one leaves it.  The [OverflowError] that a power raises when
      its result exceeds the largest double has no counterpart in [Q] and
      is outside this reading.
    - Each calculator returns one text report.  The embedding returns the
      local variables the report prints, under the names they have in the
      source, and the report lines that the properties below talk about. *)

From Stdlib Require Import QArith ZArith Qpower Qabs String Ascii List Bool.
From Stdlib Require Import Lia Lqa DecimalString.
From Stdlib Require PrimFloat Uint63.
Import ListNotations.

Local Open Scope Z_scope.
Local Open Scope Q_scope.

(** ** Python values and operators *)

Module Py.

Inductive exn : Set := ZeroDivisionError.

Inductive outcome (A : Type) : Type :=
| Return (a : A)
| Raise (e : exn).
Arguments Return {A} a.
Arguments Raise {A} e.

Definition bind {A B : Type} (m : outcome A) (k : A -> outcome B) : outcome B :=
  match m with
  | Return a => k a
  | Raise e => Raise e
  end.

Definition raises {A : Type} (m : outcome A) : Prop :=
  match m with
  | Return _ => False
  | Raise _ => True
  end.

(** [for x in xs: body(x)] where the body may raise and yields one item. *)
Fixpoint for_each {A B : Type} (body : A -> outcome B) (xs : list A)
  : outcome (list B) :=
  match xs with
  | [] => Return []
  | x :: rest =>
      bind (body x) (fun y =>
      bind (for_each body rest) (fun ys => Return (y :: ys)))
  end.

(** [x < y] on numbers. *)
Definition lt (x y : Q) : bool := negb (Qle_bool y x).

(** [x / y]: true division. *)
Definition truediv (x y : Q) : outcome Q :=
  if Qeq_bool y 0 then Raise ZeroDivisionError else Return (x / y).

(** [b ** e] for a float base and an int exponent. *)
Definition pow (b : Q) (e : Z) : outcome Q :=
  if (e <? 0)%Z && Qeq_bool b 0 then Raise ZeroDivisionError
  else Return (b ^ e).

(** [max(0, x)]: the first argument unless the second is larger. *)
Definition max0 (x : Q) : Q := if lt 0 x then x else 0.

(** [range(start, stop, step)] for a positive step. *)
Definition range (start stop step : Z) : list Z :=
  let n := if (start <? stop)%Z then ((stop - start + step - 1) / step)%Z else 0%Z in
  map (fun i => (start + Z.of_nat i * step)%Z) (seq 0 (Z.to_nat n)).

(** [s.lower()].  Only the letters A-Z are mapped; no other character
    lowers to a letter occurring in the words the calculators compare
    against, so equality with those words is decided the same way. *)
Definition lower_ascii (c : ascii) : ascii :=
  let n := nat_of_ascii c in
  if (65 <=? n)%nat && (n <=? 90)%nat then ascii_of_nat (n + 32) else c.

Fixpoint lower (s : string) : string :=
  match s with
  | EmptyString => EmptyString
  | String c rest => String (lower_ascii c) (lower rest)
  end.

(** [d.get(key, default)] on a dict literal, as an association list. *)
Fixpoint dict_get {V : Type} (d : list (string * V)) (key : string) (default : V) : V :=
  match d with
  | [] => default
  | (k, v) :: rest => if String.eqb k key then v else dict_get rest key default
  end.

(** *** The format specification [,.2f] *)

(** Nearest integer to [100 * q], ties to even. *)
Definition cents (q : Q) : Z :=
  let n := (Qnum q * 100)%Z in
  let d := Zpos (Qden q) in
  let fl := (n / d)%Z in
  match (2 * (n mod d) ?= d)%Z with
  | Lt => fl
  | Gt => (fl + 1)%Z
  | Eq => if Z.even fl then fl else (fl + 1)%Z
  end.

Fixpoint commas_rev (digits : list ascii) (k : nat) : list ascii :=
  match digits with
  | [] => []
  | c :: rest =>
      if (k =? 3)%nat then ","%char :: c :: commas_rev rest 1
      else c :: commas_rev rest (S k)
  end.

Definition group_thousands (s : string) : string :=
  string_of_list_ascii (rev (commas_rev (rev (list_ascii_of_string s)) 0)).

Definition two_digits (n : Z) : string :=
  let s := NilZero.string_of_uint (N.to_uint (Z.to_N n)) in
  if (n <? 10)%Z then ("0" ++ s)%string else s.

Definition format_money (q : Q) : string :=
  let c := Z.abs (cents q) in
  ((if lt q 0 then "-" else "")
     ++ group_thousands (NilZero.string_of_uint (N.to_uint (Z.to_N (c / 100))))
     ++ "." ++ two_digits (c mod 100))%string.

End Py.

Import Py.

Notation "x <- m ;; k" := (Py.bind m (fun x => k))
  (at level 61, m at next level, right associativity).

(** ** Allocation rule engine *)

Module Allocation.

Record AllocationRequest : Type := {
  age : Z;
  risk_tolerance : string;
  total_amount : Q
}.

Record AllocationResult : Type := {
  risk : string;
  stock_pct : Z;
  bond_pct : Z;
  stock_amount : Q;
  bond_amount : Q
}.

Definition calculate_portfolio_allocation (args : AllocationRequest)
  : outcome AllocationResult :=
  let age := age args in
  let risk := Py.lower (risk_tolerance args) in
  let total := total_amount args in
  let base_stock_pct := (100 - age)%Z in
  let stock_pct :=
    if String.eqb risk "conservative" then Z.max 20 (base_stock_pct - 15)
    else if String.eqb risk "aggressive" then Z.min 90 (base_stock_pct + 15)
    else base_stock_pct in
  let bond_pct := (100 - stock_pct)%Z in
  let stock_amount := total * (inject_Z stock_pct / 100) in
  let bond_amount := total * (inject_Z bond_pct / 100) in
  Return {| risk := risk;
            stock_pct := stock_pct;
            bond_pct := bond_pct;
            stock_amount := stock_amount;
            bond_amount := bond_amount |}.

(** The rule as the specification words it, on the three-valued risk
    tolerance of the data model. *)
Inductive tolerance : Set := conservative | moderate | aggressive.

Definition tolerance_of (s : string) : tolerance :=
  if String.eqb (Py.lower s) "conservative" then conservative
  else if String.eqb (Py.lower s) "aggressive" then aggressive
  else moderate.

Definition spec_stock_pct (age : Z) (t : tolerance) : Z :=
  match t with
  | conservative => Z.max 20 (100 - age - 15)
  | aggressive => Z.min 90 (100 - age + 15)
  | moderate => (100 - age)%Z
  end.

End Allocation.

(** ** Compound growth projector *)

Module Growth.

Record GrowthRequest : Type := {
  principal : Q;
  annual_rate : Q;
  years : Z;
  monthly_contribution : Q
}.

Record GrowthResult : Type := {
  total_invested : Q;
  total_fv : Q;
  total_gains : Q;
  roi_pct : Q;
  breakdown : list (Z * Q)
}.

(** The value after [months] months: the future value of the principal plus
    the annuity formula for the contributions.  The source writes these
    statements twice, for the headline figure (with [months]) and in the
    body of the year-by-year loop (with [months_elapsed]). *)
Definition value_after (principal monthly_rate monthly_contrib : Q) (months : Z)
  : outcome Q :=
  p <- Py.pow (1 + monthly_rate) months ;;
  let fv_principal := principal * p in
  fv_contributions <-
    (if Py.lt 0 monthly_contrib then
       p' <- Py.pow (1 + monthly_rate) months ;;
       q <- Py.truediv (p' - 1) monthly_rate ;;
       Return (monthly_contrib * q)
     else Return 0) ;;
  Return (fv_principal + fv_contributions).

Definition calculate_compound_interest (args : GrowthRequest)
  : outcome GrowthResult :=
  let principal := principal args in
  let annual_rate := annual_rate args / 100 in
  let years := years args in
  let monthly_contrib := monthly_contribution args in
  let monthly_rate := annual_rate / 12 in
  let months := (years * 12)%Z in
  total_fv <- value_after principal monthly_rate monthly_contrib months ;;
  let total_invested := principal + monthly_contrib * inject_Z months in
  let total_gains := total_fv - total_invested in
  roi <- Py.truediv total_gains total_invested ;;
  let step := if (10 <? years)%Z then 5%Z else 1%Z in
  rows <- Py.for_each
            (fun year =>
               let months_elapsed := (year * 12)%Z in
               total_value <- value_after principal monthly_rate monthly_contrib
                                          months_elapsed ;;
               Return (year, total_value))
            (Py.range step (years + 1) step) ;;
  Return {| total_invested := total_invested;
            total_fv := total_fv;
            total_gains := total_gains;
            roi_pct := roi * 100;
            breakdown := rows |}.

(** The value [value_after] computes when nothing raises, and the sum the
    annuity factor [((1 + r) ** n - 1) / r] stands for. *)
Definition closed_form (principal monthly_rate monthly_contrib : Q) (months : Z) : Q :=
  principal * (1 + monthly_rate) ^ months
  + (if Py.lt 0 monthly_contrib then
       monthly_contrib * (((1 + monthly_rate) ^ months - 1) / monthly_rate)
     else 0).

Fixpoint geometric_sum (x : Q) (n : nat) : Q :=
  match n with
  | O => 0
  | S k => geometric_sum x k + x ^ Z.of_nat k
  end.

End Growth.

(** ** Stock metric classifier *)

Module Stock.

Record StockEvaluationRequest : Type := {
  stock_name : string;
  current_price : Q;
  pe_ratio : Q;
  dividend_yield : Q;
  revenue_growth : Q;
  debt_to_equity : Q
}.

Record StockEvaluationResult : Type := {
  signals : list string;
  positive_signals : nat;
  warning_signals : nat;
  overall : string
}.

(** [sum(1 for s in signals if s.startswith(mark))] *)
Definition count_startswith (mark : string) (signals : list string) : nat :=
  length (filter (String.prefix mark) signals).

Definition evaluate_stock_metrics (args : StockEvaluationRequest)
  : outcome StockEvaluationResult :=
  let pe := pe_ratio args in
  let div_yield := dividend_yield args in
  let revenue_growth := revenue_growth args in
  let debt_to_equity := debt_to_equity args in
  let signals := [] in
  let signals := signals ++
    [if Py.lt pe 15 then
       "✓ P/E Ratio: ATTRACTIVE (< 15) - Stock may be undervalued"
     else if Py.lt pe 25 then
       "○ P/E Ratio: FAIR (15-25) - Reasonably valued"
     else
       "⚠ P/E Ratio: HIGH (> 25) - Stock may be overvalued or high-growth"]%string in
  let signals := signals ++
    [if Py.lt 3 div_yield then
       "✓ Dividend Yield: STRONG (> 3%) - Good income potential"
     else if Py.lt 1 div_yield then
       "○ Dividend Yield: MODERATE (1-3%) - Some income"
     else
       "○ Dividend Yield: LOW (< 1%) - Growth-focused company"]%string in
  let signals := signals ++
    [if Py.lt 20 revenue_growth then
       "✓ Revenue Growth: EXCELLENT (> 20%) - Strong expansion"
     else if Py.lt 10 revenue_growth then
       "✓ Revenue Growth: GOOD (10-20%) - Solid growth"
     else if Py.lt 0 revenue_growth then
       "○ Revenue Growth: MODEST (0-10%) - Stable company"
     else
       "⚠ Revenue Growth: DECLINING - Revenue concerns"]%string in
  let signals := signals ++
    [if Py.lt debt_to_equity (1 # 2) then
       "✓ Debt Level: LOW (< 0.5) - Strong balance sheet"
     else if Py.lt debt_to_equity (3 # 2) then
       "○ Debt Level: MODERATE (0.5-1.5) - Manageable debt"
     else
       "⚠ Debt Level: HIGH (> 1.5) - Leverage concerns"]%string in
  let positive_signals := count_startswith "✓" signals in
  let warning_signals := count_startswith "⚠" signals in
  let overall :=
    (if (3 <=? positive_signals)%nat then
       "POSITIVE - Multiple favorable indicators"
     else if (2 <=? warning_signals)%nat then
       "CAUTIOUS - Multiple concerns identified"
     else
       "NEUTRAL - Mixed signals, requires deeper analysis")%string in
  Return {| signals := signals;
            positive_signals := positive_signals;
            warning_signals := warning_signals;
            overall := overall |}.

(** The classifier as the specification words it: a tri-state label per
    metric and a three-valued verdict. *)
Inductive label : Set := favorable | neutral | warning.
Inductive verdict : Set := POSITIVE | CAUTIOUS | NEUTRAL.

Definition spec_pe (pe : Q) : label :=
  if Py.lt pe 15 then favorable else if Py.lt pe 25 then neutral else warning.

Definition spec_dividend (y : Q) : label :=
  if Py.lt 3 y then favorable else if Py.lt 1 y then neutral else neutral.

Definition spec_growth (g : Q) : label :=
  if Py.lt 20 g then favorable
  else if Py.lt 10 g then favorable
  else if Py.lt 0 g then neutral
  else warning.

Definition spec_debt (d : Q) : label :=
  if Py.lt d (1 # 2) then favorable else if Py.lt d (3 # 2) then neutral else warning.

Definition spec_labels (args : StockEvaluationRequest) : list label :=
  [spec_pe (pe_ratio args); spec_dividend (dividend_yield args);
   spec_growth (revenue_growth args); spec_debt (debt_to_equity args)].

Definition label_eqb (a b : label) : bool :=
  match a, b with
  | favorable, favorable | neutral, neutral | warning, warning => true
  | _, _ => false
  end.

Definition spec_verdict (labels : list label) : verdict :=
  if (3 <=? length (filter (label_eqb favorable) labels))%nat then POSITIVE
  else if (2 <=? length (filter (label_eqb warning) labels))%nat then CAUTIOUS
  else NEUTRAL.

(** Reading a report line back: the label its leading mark stands for. *)
Definition label_of_signal (s : string) : option label :=
  if String.prefix "✓" s then Some favorable
  else if String.prefix "○" s then Some neutral
  else if String.prefix "⚠" s then Some warning
  else None.

Definition verdict_word (v : verdict) : string :=
  match v with
  | POSITIVE => "POSITIVE"
  | CAUTIOUS => "CAUTIOUS"
  | NEUTRAL => "NEUTRAL"
  end.

End Stock.

(** ** Retirement needs solver *)

Module Retirement.

Record RetirementRequest : Type := {
  current_age : Z;
  retirement_age : Z;
  current_savings : Q;
  desired_annual_income : Q;
  expected_return : Q
}.

(** [additional_needed] is the local variable; [additional_savings_needed]
    is the figure the report prints for it, [max(0, additional_needed)]. *)
Record RetirementResult : Type := {
  years_to_retirement : Z;
  retirement_years : Z;
  retirement_corpus : Q;
  fv_current : Q;
  additional_needed : Q;
  additional_savings_needed : Q;
  monthly_contribution : Q
}.

(** The future value of the current savings, compounded once a year. *)
Definition projected_savings (args : RetirementRequest) : outcome Q :=
  let expected_return := expected_return args / 100 in
  let years_to_retirement := (retirement_age args - current_age args)%Z in
  p <- Py.pow (1 + expected_return) years_to_retirement ;;
  Return (current_savings args * p).

Definition calculate_retirement_needs (args : RetirementRequest)
  : outcome RetirementResult :=
  let retirement_age := retirement_age args in
  let annual_income := desired_annual_income args in
  let expected_return := expected_return args / 100 in
  let years_to_retirement := (retirement_age - current_age args)%Z in
  let life_expectancy := 90%Z in
  let retirement_years := (life_expectancy - retirement_age)%Z in
  let retirement_corpus := annual_income * 25 in
  fv_current <- projected_savings args ;;
  let additional_needed := retirement_corpus - fv_current in
  monthly_contribution <-
    (if Py.lt 0 additional_needed then
       let monthly_rate := expected_return / 12 in
       let months := (years_to_retirement * 12)%Z in
       p <- Py.pow (1 + monthly_rate) months ;;
       Py.truediv (additional_needed * monthly_rate) (p - 1)
     else Return 0) ;;
  Return {| years_to_retirement := years_to_retirement;
            retirement_years := retirement_years;
            retirement_corpus := retirement_corpus;
            fv_current := fv_current;
            additional_needed := additional_needed;
            additional_savings_needed := Py.max0 additional_needed;
            monthly_contribution := monthly_contribution |}.

End Retirement.

(** ** Investment comparator *)

Module Comparison.

Record ComparisonRequest : Type := {
  option_a_name : string;
  option_a_return : Q;
  option_a_risk : string;
  option_b_name : string;
  option_b_return : Q;
  option_b_risk : string;
  investment_amount : Q;
  time_horizon : Z
}.

(** [comparison] and [recommendation] are the two pieces of text appended
    to the report after the per-option blocks. *)
Record ComparisonResult : Type := {
  fv_a : Q;
  fv_b : Q;
  gain_a : Q;
  gain_b : Q;
  risk_adj_return_a : Q;
  risk_adj_return_b : Q;
  comparison : string;
  recommendation : string
}.

Definition risk_scores : list (string * Q) :=
  [("low", 1); ("medium", 2); ("high", 3)]%string.

Definition newline : string := String (ascii_of_nat 10) EmptyString.

Definition compare_investment_options (args : ComparisonRequest)
  : outcome ComparisonResult :=
  let name_a := option_a_name args in
  let return_a := option_a_return args / 100 in
  let risk_a := option_a_risk args in
  let name_b := option_b_name args in
  let return_b := option_b_return args / 100 in
  let risk_b := option_b_risk args in
  let amount := investment_amount args in
  let years := time_horizon args in
  pa <- Py.pow (1 + return_a) years ;;
  let fv_a := amount * pa in
  pb <- Py.pow (1 + return_b) years ;;
  let fv_b := amount * pb in
  let gain_a := fv_a - amount in
  let gain_b := fv_b - amount in
  let risk_score_a := Py.dict_get risk_scores (Py.lower risk_a) 2 in
  let risk_score_b := Py.dict_get risk_scores (Py.lower risk_b) 2 in
  risk_adj_return_a <- Py.truediv (option_a_return args - 2) risk_score_a ;;
  risk_adj_return_b <- Py.truediv (option_b_return args - 2) risk_score_b ;;
  let comparison :=
    (if Py.lt fv_b fv_a then
       let difference := fv_a - fv_b in
       name_a ++ " will be $" ++ Py.format_money difference
              ++ " higher than " ++ name_b ++ newline
     else
       let difference := fv_b - fv_a in
       name_b ++ " will be $" ++ Py.format_money difference
              ++ " higher than " ++ name_a ++ newline)%string in
  let recommendation :=
    (if Py.lt (risk_adj_return_b * (6 # 5)) risk_adj_return_a then
       newline ++ "RECOMMENDATION: " ++ name_a
               ++ " offers better risk-adjusted returns"
     else if Py.lt (risk_adj_return_a * (6 # 5)) risk_adj_return_b then
       newline ++ "RECOMMENDATION: " ++ name_b
               ++ " offers better risk-adjusted returns"
     else
       newline ++ "RECOMMENDATION: Both options are comparable; choose based on your risk tolerance")%string in
  Return {| fv_a := fv_a;
            fv_b := fv_b;
            gain_a := gain_a;
            gain_b := gain_b;
            risk_adj_return_a := risk_adj_return_a;
            risk_adj_return_b := risk_adj_return_b;
            comparison := comparison;
            recommendation := recommendation |}.

(** The three recommendation texts. *)
Definition recommends (name : string) : string :=
  (newline ++ "RECOMMENDATION: " ++ name ++ " offers better risk-adjusted returns")%string.

Definition comparable_text : string :=
  (newline ++ "RECOMMENDATION: Both options are comparable; choose based on your risk tolerance")%string.

End Comparison.

(** ** Requests derived from other requests *)

Module Derived.

(** The comparison request with the two options exchanged. *)
Definition swap_options (args : Comparison.ComparisonRequest)
  : Comparison.ComparisonRequest :=
  {| Comparison.option_a_name := Comparison.option_b_name args;
     Comparison.option_a_return := Comparison.option_b_return args;
     Comparison.option_a_risk := Comparison.option_b_risk args;
     Comparison.option_b_name := Comparison.option_a_name args;
     Comparison.option_b_return := Comparison.option_a_return args;
     Comparison.option_b_risk := Comparison.option_a_risk args;
     Comparison.investment_amount := Comparison.investment_amount args;
     Comparison.time_horizon := Comparison.time_horizon args |}.

End Derived.

(** ** The advisor agents' handling of a response

    The three agent classes ([FinancialAdvisorAgent],
    [ConversationalFinancialAdvisor], [AdvancedFinancialAdvisor]) read the
    messages the SDK yields for a question and build one response string.
    The SDK is outside the repository: its messages are modelled by the
    attributes the agents inspect, and what the client does for one
    question by the finite sequence of messages it yields, which may end
    with something being raised. *)

Module Agent.

Inductive block : Type :=
| TextBlock (text : string)
| ToolUseBlock (name : string)
| ToolResultBlock
| OtherBlock.

Inductive message : Type :=
| AssistantMessage (content : list block)
| ResultMessage (is_error : bool) (result : option string)
| OtherMessage.

(** Exceptions derived from [Exception], each with its [str(e)] and the
    attributes the handlers print. *)
Inductive exception : Type :=
| CLINotFoundError (str : string)
| ProcessError (str : string) (exit_code : option Z) (stderr : option string)
| CLIJSONDecodeError (str : string) (line : string)
| OtherException (str : string).

(** What a [raise] carries: an [Exception], or something that is not one
    ([KeyboardInterrupt], [asyncio.CancelledError]), which [except
    Exception] does not catch. *)
Inductive raised : Type :=
| An (e : exception)
| Interrupt.

Inductive stream : Type :=
| Done
| Yield (m : message) (rest : stream)
| Throw (r : raised).

Inductive escape : Type :=
| RuntimeError (msg : string)
| Interrupted.

Inductive result (A : Type) : Type :=
| Returns (a : A)
| Escapes (e : escape).
Arguments Returns {A} a.
Arguments Escapes {A} e.

Definition str (e : exception) : string :=
  match e with
  | CLINotFoundError s | ProcessError s _ _ | CLIJSONDecodeError s _
  | OtherException s => s
  end.

(** [x or default] for an optional string: [None] and the empty string
    are both false. *)
Definition or_default (x : option string) (default : string) : string :=
  match x with
  | None | Some EmptyString => default
  | Some s => s
  end.

(** An [int] or [None], and a [str] or [None], inside an f-string. *)
Definition format_int (z : Z) : string :=
  ((if (z <? 0)%Z then "-" else "")
     ++ NilZero.string_of_uint (N.to_uint (Z.to_N (Z.abs z))))%string.

Definition format_optional_int (z : option Z) : string :=
  match z with Some n => format_int n | None => "None"%string end.

Definition format_optional_str (s : option string) : string :=
  match s with Some t => t | None => "None"%string end.

(** [for block in message.content: if isinstance(block, TextBlock):
    response_text += block.text] *)
Fixpoint add_text (response_text : string) (content : list block) : string :=
  match content with
  | [] => response_text
  | TextBlock text :: rest => add_text (response_text ++ text) rest
  | _ :: rest => add_text response_text rest
  end.

(** *** [FinancialAdvisorAgent.ask_advice] *)

Fixpoint ask_advice_from (response_text : string) (s : stream) : result string :=
  match s with
  | Done => Returns response_text
  | Yield (AssistantMessage content) rest =>
      ask_advice_from (add_text response_text content) rest
  | Yield (ResultMessage is_error result) rest =>
      if is_error then
        Returns ("Error occurred: " ++ or_default result "Unknown error")%string
      else ask_advice_from response_text rest
  | Yield OtherMessage rest => ask_advice_from response_text rest
  | Throw (An (CLINotFoundError _)) =>
      Returns "Error: Claude Code CLI not found. Please install it with: npm install -g @anthropic-ai/claude-code"%string
  | Throw (An (ProcessError _ exit_code stderr)) =>
      Returns ("Process error: " ++ format_optional_int exit_code ++ " - "
                 ++ format_optional_str stderr)%string
  | Throw (An (CLIJSONDecodeError _ line)) =>
      Returns ("Failed to parse response: " ++ line)%string
  | Throw (An (OtherException s)) =>
      Returns ("Unexpected error: " ++ s)%string
  | Throw Interrupt => Escapes Interrupted
  end.

Definition ask_advice (s : stream) : result string := ask_advice_from "" s.

(** *** [ConversationalFinancialAdvisor] *)

(** The connected SDK client, opaque. *)
Inductive ClaudeSDKClient : Type := connected_client.

Record advisor : Type := { client : option ClaudeSDKClient }.

(** [__init__] *)
Definition new_advisor : advisor := {| client := None |}.

Definition not_started : string :=
  "Conversation not started. Call start_conversation() first.".

Fixpoint ask_from (response_text : string) (s : stream) : result string :=
  match s with
  | Done => Returns response_text
  | Yield (AssistantMessage content) rest =>
      ask_from (add_text response_text content) rest
  | Yield (ResultMessage is_error result) rest =>
      if is_error then
        Returns ("Error: " ++ or_default result "Unknown error")%string
      else ask_from response_text rest
  | Yield OtherMessage rest => ask_from response_text rest
  | Throw (An e) => Returns ("Error during conversation: " ++ str e)%string
  | Throw Interrupt => Escapes Interrupted
  end.

(** [ask]: [s] is what the client yields for the question. *)
Definition ask (self : advisor) (s : stream) : result string :=
  match client self with
  | None => Escapes (RuntimeError not_started)
  | Some _ => ask_from "" s
  end.

(** [start_conversation] without an initial message, and
    [end_conversation]. *)
Definition start_conversation (self : advisor) : advisor :=
  {| client := Some connected_client |}.


(** *** [AdvancedFinancialAdvisor.ask]

    The same loop; tool blocks are reported on the console when
    [show_tool_usage] is set.  The result is paired with the lines
    printed. *)

Definition tool_use_line (name : string) : string :=
  ("  [🔧 Using tool: " ++ name ++ "]")%string.

Definition tool_done_line : string := "  [✓ Tool completed]".

Fixpoint add_blocks (show_tool_usage : bool) (response_text : string)
  (printed : list string) (content : list block) : string * list string :=
  match content with
  | [] => (response_text, printed)
  | TextBlock text :: rest =>
      add_blocks show_tool_usage (response_text ++ text) printed rest
  | ToolUseBlock name :: rest =>
      if show_tool_usage then
        add_blocks show_tool_usage response_text (printed ++ [tool_use_line name]) rest
      else add_blocks show_tool_usage response_text printed rest
  | ToolResultBlock :: rest =>
      if show_tool_usage then
        add_blocks show_tool_usage response_text (printed ++ [tool_done_line]) rest
      else add_blocks show_tool_usage response_text printed rest
  | OtherBlock :: rest => add_blocks show_tool_usage response_text printed rest
  end.

Fixpoint advanced_ask_from (show_tool_usage : bool) (response_text : string)
  (printed : list string) (s : stream) : result string * list string :=
  match s with
  | Done => (Returns response_text, printed)
  | Yield (AssistantMessage content) rest =>
      let (text, out) := add_blocks show_tool_usage response_text printed content in
      advanced_ask_from show_tool_usage text out rest
  | Yield (ResultMessage is_error result) rest =>
      if is_error then
        (Returns ("Error: " ++ or_default result "Unknown error")%string, printed)
      else advanced_ask_from show_tool_usage response_text printed rest
  | Yield OtherMessage rest =>
      advanced_ask_from show_tool_usage response_text printed rest
  | Throw (An e) => (Returns ("Error: " ++ str e)%string, printed)
  | Throw Interrupt => (Escapes Interrupted, printed)
  end.

Definition advanced_ask (self : advisor) (s : stream) (show_tool_usage : bool)
  : result string * list string :=
  match client self with
  | None => (Escapes (RuntimeError not_started), [])
  | Some _ => advanced_ask_from show_tool_usage "" [] s
  end.

(** *** Reading a stream as a whole *)

(** The messages of a stream, followed by a stream. *)
Fixpoint prepend (ms : list message) (s : stream) : stream :=
  match ms with
  | [] => s
  | m :: rest => Yield m (prepend rest s)
  end.

Definition is_error_result (m : message) : bool :=
  match m with
  | ResultMessage true _ => true
  | _ => false
  end.

Definition no_error_result (ms : list message) : Prop :=
  Forall (fun m => is_error_result m = false) ms.

Definition block_text (b : block) : string :=
  match b with TextBlock text => text | _ => EmptyString end.

Definition message_text (m : message) : string :=
  match m with
  | AssistantMessage content => fold_right String.append EmptyString (map block_text content)
  | _ => EmptyString
  end.

(** All text blocks of the messages, in order. *)
Definition all_text (ms : list message) : string :=
  fold_right String.append EmptyString (map message_text ms).

Definition block_lines (b : block) : list string :=
  match b with
  | ToolUseBlock name => [tool_use_line name]
  | ToolResultBlock => [tool_done_line]
  | _ => []
  end.

Definition message_lines (m : message) : list string :=
  match m with
  | AssistantMessage content => flat_map block_lines content
  | _ => []
  end.

End Agent.
(** ** Choosing the model ([claude_poc_anthropic.py])

    The script lists the available models, keeps the ids that contain
    "sonnet" in any case, and takes the largest of them with [max]; when
    the listing raises or no id qualifies it falls back to a fixed id. *)

Module ModelChoice.

(** [needle in hay] *)
Fixpoint contains (needle hay : string) : bool :=
  match hay with
  | EmptyString => String.prefix needle EmptyString
  | String _ rest => String.prefix needle hay || contains needle rest
  end.

(** [max(x, *rest)] on strings: the first of the largest elements. *)
Definition max_str (x : string) (rest : list string) : string :=
  fold_left (fun best y => if String.ltb best y then y else best) rest x.

Definition fallback : string := "claude-sonnet-4-5-20250929".

Definition sonnet_models (ids : list string) : list string :=
  filter (fun model_id => contains "sonnet" (Py.lower model_id)) ids.

(** [listing] is [None] when [client.models.list()] raises. *)
Definition selected_model (listing : option (list string)) : string :=
  match listing with
  | None => fallback
  | Some ids =>
      match sonnet_models ids with
      | [] => fallback
      | x :: rest => max_str x rest
      end
  end.

End ModelChoice.

(** ** The allocation calculator in double precision

    Python's [float] is IEEE 754 binary64, and so is Rocq's primitive
    [float]: in both, addition, subtraction, multiplication and division
    round to nearest, ties to even.  The allocation calculator uses no other
    float operation, so this second embedding computes its dollar amounts
    bit for bit, for every age whose percentages stay below 2^53 in
    magnitude (the range on which [of_int] is exact).  The other
    calculators raise to a power with the C library's [pow], which has no
    counterpart here. *)

Module Binary64.

(** An [int] as a [float]; exact for magnitudes below 2^53. *)
Definition of_int (z : Z) : PrimFloat.float :=
  if (z <? 0)%Z then PrimFloat.opp (PrimFloat.of_uint63 (Uint63.of_Z (- z)))
  else PrimFloat.of_uint63 (Uint63.of_Z z).

(** [a / b] for two [int]s: the correctly rounded quotient, which for
    operands below 2^53 is the quotient of the two floats. *)
Definition int_truediv (a b : Z) : PrimFloat.float :=
  PrimFloat.div (of_int a) (of_int b).

Record AllocationRequest : Type := {
  age : Z;
  risk_tolerance : string;
  total_amount : PrimFloat.float
}.

Record AllocationResult : Type := {
  risk : string;
  stock_pct : Z;
  bond_pct : Z;
  stock_amount : PrimFloat.float;
  bond_amount : PrimFloat.float
}.

Definition calculate_portfolio_allocation (args : AllocationRequest)
  : outcome AllocationResult :=
  let age := age args in
  let risk := Py.lower (risk_tolerance args) in
  let total := total_amount args in
  let base_stock_pct := (100 - age)%Z in
  let stock_pct :=
    if String.eqb risk "conservative" then Z.max 20 (base_stock_pct - 15)
    else if String.eqb risk "aggressive" then Z.min 90 (base_stock_pct + 15)
    else base_stock_pct in
  let bond_pct := (100 - stock_pct)%Z in
  let stock_amount := PrimFloat.mul total (int_truediv stock_pct 100) in
  let bond_amount := PrimFloat.mul total (int_truediv bond_pct 100) in
  Return {| risk := risk;
            stock_pct := stock_pct;
            bond_pct := bond_pct;
            stock_amount := stock_amount;
            bond_amount := bond_amount |}.


End Binary64.

(** * Properties *)

(** ** Operators *)

Lemma lt_true_iff (x y : Q) : Py.lt x y = true <-> x < y.
Proof.
  unfold Py.lt. rewrite negb_true_iff.
  destruct (Qle_bool y x) eqn:E.
  - apply Qle_bool_iff in E. split; [discriminate | intro H; exfalso; lra].
  - split; [intros _ | reflexivity].
    apply Qnot_le_lt. intro H. apply Qle_bool_iff in H. congruence.
Qed.

Lemma lt_false_iff (x y : Q) : Py.lt x y = false <-> y <= x.
Proof.
  unfold Py.lt. rewrite negb_false_iff. apply Qle_bool_iff.
Qed.

Lemma truediv_nonzero (x y : Q) : ~ y == 0 -> Py.truediv x y = Return (x / y).
Proof.
  intro H. unfold Py.truediv.
  destruct (Qeq_bool y 0) eqn:E; [apply Qeq_bool_iff in E; contradiction | reflexivity].
Qed.

Lemma truediv_zero (x y : Q) : y == 0 -> Py.truediv x y = Raise ZeroDivisionError.
Proof.
  intro H. unfold Py.truediv.
  apply Qeq_bool_iff in H. rewrite H. reflexivity.
Qed.

Lemma pow_nonneg_exponent (b : Q) (e : Z) : (0 <= e)%Z -> Py.pow b e = Return (b ^ e).
Proof.
  intro H. unfold Py.pow.
  destruct (e <? 0)%Z eqn:E; [apply Z.ltb_lt in E; lia | reflexivity].
Qed.

Lemma pow_nonzero_base (b : Q) (e : Z) : ~ b == 0 -> Py.pow b e = Return (b ^ e).
Proof.
  intro H. unfold Py.pow.
  destruct (Qeq_bool b 0) eqn:E; [apply Qeq_bool_iff in E; contradiction |].
  rewrite andb_false_r. reflexivity.
Qed.

Lemma cents_zero (q : Q) : q == 0 -> Py.cents q = 0%Z.
Proof.
  intro H. unfold Qeq in H. simpl in H. rewrite Z.mul_1_r in H.
  unfold Py.cents. rewrite H. reflexivity.
Qed.

Lemma format_money_zero (q : Q) : q == 0 -> Py.format_money q = "0.00"%string.
Proof.
  intro H. unfold Py.format_money.
  rewrite (cents_zero q H).
  assert (E : Py.lt q 0 = false) by (apply lt_false_iff; lra).
  rewrite E. reflexivity.
Qed.

Example range_examples :
  Py.range 1 11 1 = [1; 2; 3; 4; 5; 6; 7; 8; 9; 10]%Z
  /\ Py.range 5 21 5 = [5; 10; 15; 20]%Z
  /\ Py.range 5 13 5 = [5; 10]%Z
  /\ Py.range 1 1 1 = [].
Proof. repeat split. Qed.

Example format_money_examples :
  Py.format_money (1234567891 # 1000) = "1,234,567.89"%string
  /\ Py.format_money (- (12345 # 10)) = "-1,234.50"%string
  /\ Py.format_money (1 # 8) = "0.12"%string
  /\ Py.format_money 999 = "999.00"%string
  /\ Py.format_money 1000 = "1,000.00"%string.
Proof. repeat split. Qed.

Example lower_example : Py.lower "ConSERVative" = "conservative"%string.
Proof. reflexivity. Qed.

(** ** Allocation *)

Lemma allocation_returns (args : Allocation.AllocationRequest) :
  exists r, Allocation.calculate_portfolio_allocation args = Return r
            /\ Allocation.stock_pct r
               = Allocation.spec_stock_pct (Allocation.age args)
                   (Allocation.tolerance_of (Allocation.risk_tolerance args))
            /\ Allocation.bond_pct r = (100 - Allocation.stock_pct r)%Z
            /\ Allocation.stock_amount r
               == Allocation.total_amount args * (inject_Z (Allocation.stock_pct r) / 100)
            /\ Allocation.bond_amount r
               == Allocation.total_amount args * (inject_Z (Allocation.bond_pct r) / 100).
Proof.
  unfold Allocation.calculate_portfolio_allocation.
  eexists. split; [reflexivity |]. cbn [Allocation.stock_pct Allocation.bond_pct
    Allocation.stock_amount Allocation.bond_amount].
  repeat split; try reflexivity.
  unfold Allocation.tolerance_of, Allocation.spec_stock_pct.
  destruct (String.eqb (Py.lower (Allocation.risk_tolerance args)) "conservative");
    [f_equal; lia |].
  destruct (String.eqb (Py.lower (Allocation.risk_tolerance args)) "aggressive");
    reflexivity.
Qed.






(** C8.  The stock percentage is 100 minus the age, adjusted by the risk
    tolerance as the specification words it: 15 points less with a floor of
    20 for conservative, 15 points more with a cap of 90 for aggressive,
    unchanged (no floor, no cap) for moderate.  At age 35, moderate, 40000
    the result is 65 / 35 and 26,000.00 / 14,000.00; at age 95, moderate,
    the stock percentage is 5. *)
Theorem allocation_rule :
  (forall args, exists r,
      Allocation.calculate_portfolio_allocation args = Return r
      /\ Allocation.stock_pct r
         = Allocation.spec_stock_pct (Allocation.age args)
             (Allocation.tolerance_of (Allocation.risk_tolerance args)))
  /\ (exists r,
        Allocation.calculate_portfolio_allocation
          {| Allocation.age := 35; Allocation.risk_tolerance := "moderate";
             Allocation.total_amount := 40000 |} = Return r
        /\ Allocation.stock_pct r = 65%Z /\ Allocation.bond_pct r = 35%Z
        /\ Allocation.stock_amount r == 26000
        /\ Allocation.bond_amount r == 14000
        /\ Py.format_money (Allocation.stock_amount r) = "26,000.00"%string
        /\ Py.format_money (Allocation.bond_amount r) = "14,000.00"%string)
  /\ (exists r,
        Allocation.calculate_portfolio_allocation
          {| Allocation.age := 95; Allocation.risk_tolerance := "moderate";
             Allocation.total_amount := 40000 |} = Return r
        /\ Allocation.stock_pct r = 5%Z /\ Allocation.bond_pct r = 95%Z).
Proof.
  split; [| split].
  - intro args. destruct (allocation_returns args) as (r & Hr & Hs & _).
    exists r. split; assumption.
  - eexists. split; [reflexivity |]. repeat split; vm_compute; reflexivity.
  - eexists. split; [reflexivity |]. split; reflexivity.
Qed.

(** The risk string is matched after lowering its case, and every string
    other than the two named ones is treated as moderate. *)
Example tolerance_of_examples :
  Allocation.tolerance_of "Conservative" = Allocation.conservative
  /\ Allocation.tolerance_of "AGGRESSIVE" = Allocation.aggressive
  /\ Allocation.tolerance_of "moderate" = Allocation.moderate
  /\ Allocation.tolerance_of "balanced" = Allocation.moderate.
Proof. repeat split. Qed.

(** C9, as stated, fails: at age 150 the calculator does not raise; it
    returns the allocation -50 % stocks, 150 % bonds. *)
Lemma allocation_out_of_range_not_rejected :
  let args := {| Allocation.age := 150; Allocation.risk_tolerance := "moderate";
                 Allocation.total_amount := 1000 |} in
  (Allocation.age args < 0 \/ 100 < Allocation.age args)%Z
  /\ (120 < Allocation.age args)%Z
  /\ ~ Py.raises (Allocation.calculate_portfolio_allocation args)
  /\ exists r, Allocation.calculate_portfolio_allocation args = Return r
               /\ Allocation.stock_pct r = (-50)%Z
               /\ Allocation.bond_pct r = 150%Z.
Proof.
  cbv zeta. split; [right; reflexivity |]. split; [reflexivity |].
  split; [intro H; exact H |].
  eexists. split; [reflexivity |]. split; reflexivity.
Qed.

(** C9, amended.  The calculator has no range check on the age: for an age
    below 0 or above 100 it still returns, and the allocation is the rule
    applied to the age as given. *)
Theorem allocation_out_of_range (args : Allocation.AllocationRequest) :
  (Allocation.age args < 0 \/ 100 < Allocation.age args)%Z ->
  ~ Py.raises (Allocation.calculate_portfolio_allocation args)
  /\ exists r, Allocation.calculate_portfolio_allocation args = Return r
               /\ Allocation.stock_pct r
                  = Allocation.spec_stock_pct (Allocation.age args)
                      (Allocation.tolerance_of (Allocation.risk_tolerance args))
               /\ Allocation.bond_pct r = (100 - Allocation.stock_pct r)%Z.
Proof.
  intros _. destruct (allocation_returns args) as (r & Hr & Hs & Hb & _).
  split.
  - rewrite Hr. intro H; exact H.
  - exists r. repeat split; assumption.
Qed.

Lemma allocation_out_of_range_witness :
  (100 < 150)%Z
  /\ exists r, Allocation.calculate_portfolio_allocation
                 {| Allocation.age := 150; Allocation.risk_tolerance := "aggressive";
                    Allocation.total_amount := 1000 |} = Return r
               /\ Allocation.stock_pct r = (-35)%Z.
Proof.
  split; [reflexivity |].
  destruct (allocation_out_of_range
              {| Allocation.age := 150; Allocation.risk_tolerance := "aggressive";
                 Allocation.total_amount := 1000 |}) as (_ & r & Hr & Hs & _).
  - right. reflexivity.
  - exists r. split; [exact Hr |]. rewrite Hs. reflexivity.
Defined.

(** ** Compound growth *)

Lemma Qpower_succ (x : Q) (n : nat) : x ^ Z.of_nat (S n) == x * x ^ Z.of_nat n.
Proof.
  rewrite Nat2Z.inj_succ. unfold Z.succ.
  rewrite Qpower_plus' by lia. rewrite Qpower_1_r. ring.
Qed.

Lemma Qpower_nat_mono_base (a b : Q) (n : nat) :
  0 <= a -> a <= b -> a ^ Z.of_nat n <= b ^ Z.of_nat n.
Proof.
  intros Ha Hab. induction n as [| n IH].
  - simpl. lra.
  - rewrite !Qpower_succ.
    assert (0 <= a ^ Z.of_nat n) by (apply Qpower_0_le; exact Ha).
    nra.
Qed.

Lemma geometric_sum_closed (r : Q) (n : nat) :
  ~ r == 0 -> ((1 + r) ^ Z.of_nat n - 1) / r == Growth.geometric_sum (1 + r) n.
Proof.
  intro Hr. induction n as [| n IH].
  - simpl. field. exact Hr.
  - cbn [Growth.geometric_sum]. rewrite <- IH, Qpower_succ. field. exact Hr.
Qed.

Lemma geometric_sum_mono_base (a b : Q) (n : nat) :
  0 <= a -> a <= b -> Growth.geometric_sum a n <= Growth.geometric_sum b n.
Proof.
  intros Ha Hab. induction n as [| n IH].
  - simpl. lra.
  - cbn [Growth.geometric_sum].
    pose proof (Qpower_nat_mono_base a b n Ha Hab). lra.
Qed.

Lemma closed_form_sum (p r c : Q) (n : nat) :
  0 <= c -> (0 < c -> ~ r == 0) ->
  Growth.closed_form p r c (Z.of_nat n)
  == p * (1 + r) ^ Z.of_nat n + c * Growth.geometric_sum (1 + r) n.
Proof.
  intros Hc Hr. unfold Growth.closed_form.
  destruct (Py.lt 0 c) eqn:E.
  - apply lt_true_iff in E. rewrite (geometric_sum_closed r n (Hr E)). reflexivity.
  - apply lt_false_iff in E. assert (Hz : c == 0) by lra. rewrite Hz. ring.
Qed.

Lemma closed_form_mono_months (p r c : Q) (n1 n2 : nat) :
  0 <= c -> (0 < c -> ~ r == 0) -> 0 < 1 + r -> 0 <= p * r + c ->
  (n1 <= n2)%nat ->
  Growth.closed_form p r c (Z.of_nat n1) <= Growth.closed_form p r c (Z.of_nat n2).
Proof.
  intros Hc Hr Hx Hs Hn.
  rewrite !closed_form_sum by assumption.
  induction Hn as [| n2 Hn IH].
  - lra.
  - eapply Qle_trans; [exact IH |].
    cbn [Growth.geometric_sum]. rewrite Qpower_succ.
    assert (0 <= (1 + r) ^ Z.of_nat n2) by (apply Qpower_0_le; lra).
    nra.
Qed.

Lemma closed_form_mono_rate (p r1 r2 c : Q) (n : nat) :
  0 <= p -> 0 <= c -> (0 < c -> ~ r1 == 0 /\ ~ r2 == 0) -> 0 <= 1 + r1 -> r1 <= r2 ->
  Growth.closed_form p r1 c (Z.of_nat n) <= Growth.closed_form p r2 c (Z.of_nat n).
Proof.
  intros Hp Hc Hr Hx H12.
  rewrite !closed_form_sum by (try assumption; intro H; apply Hr; exact H).
  assert (Hab : 1 + r1 <= 1 + r2) by lra.
  pose proof (Qpower_nat_mono_base _ _ n Hx Hab).
  pose proof (geometric_sum_mono_base _ _ n Hx Hab).
  nra.
Qed.

Lemma for_each_returns {A B : Type} (body : A -> outcome B) (xs : list A) :
  (forall x, exists y, body x = Return y) ->
  exists ys, Py.for_each body xs = Return ys.
Proof.
  intro Hbody. induction xs as [| x xs IH].
  - exists []. reflexivity.
  - destruct (Hbody x) as [y Hy]. destruct IH as [ys Hys].
    exists (y :: ys). simpl. rewrite Hy. simpl. rewrite Hys. reflexivity.
Qed.

Lemma value_after_returns (p r c : Q) (m : Z) :
  ~ 1 + r == 0 -> (0 < c -> ~ r == 0) ->
  Growth.value_after p r c m = Return (Growth.closed_form p r c m).
Proof.
  intros Hx Hr. unfold Growth.value_after, Growth.closed_form.
  rewrite (pow_nonzero_base _ m Hx). simpl.
  destruct (Py.lt 0 c) eqn:E; [| reflexivity].
  apply lt_true_iff in E. simpl.
  rewrite (truediv_nonzero _ r (Hr E)). reflexivity.
Qed.

Lemma value_after_zero_rate (p r c : Q) (m : Z) :
  r == 0 -> 0 < c -> Growth.value_after p r c m = Raise ZeroDivisionError.
Proof.
  intros Hr Hc. unfold Growth.value_after.
  assert (Hx : ~ 1 + r == 0) by (rewrite Hr; discriminate).
  rewrite (pow_nonzero_base _ m Hx). simpl.
  apply lt_true_iff in Hc. rewrite Hc. simpl.
  rewrite (truediv_zero _ r Hr). reflexivity.
Qed.

Lemma growth_returns (args : Growth.GrowthRequest) :
  let r := Growth.annual_rate args / 100 / 12 in
  let m := (Growth.years args * 12)%Z in
  let invested := Growth.principal args + Growth.monthly_contribution args * inject_Z m in
  ~ 1 + r == 0 -> (0 < Growth.monthly_contribution args -> ~ r == 0) ->
  ~ invested == 0 ->
  exists res, Growth.calculate_compound_interest args = Return res
              /\ Growth.total_fv res
                 = Growth.closed_form (Growth.principal args) r
                     (Growth.monthly_contribution args) m
              /\ Growth.total_invested res = invested.
Proof.
  intros r m invested Hx Hr Hinv.
  unfold Growth.calculate_compound_interest.
  fold r. fold m. fold invested.
  rewrite (value_after_returns _ r _ m Hx Hr). cbn [Py.bind].
  fold invested.
  rewrite (truediv_nonzero _ invested Hinv). cbn [Py.bind].
  match goal with
  | |- context [Py.for_each ?body ?xs] =>
      destruct (for_each_returns body xs) as [rows Hrows]
  end.
  - intro year. rewrite (value_after_returns _ r _ _ Hx Hr). eexists. reflexivity.
  - rewrite Hrows. cbn [Py.bind]. eexists. split; [reflexivity |].
    split; reflexivity.
Qed.

Lemma growth_zero_rate_raises (args : Growth.GrowthRequest) :
  Growth.annual_rate args == 0 -> 0 < Growth.monthly_contribution args ->
  Growth.calculate_compound_interest args = Raise ZeroDivisionError.
Proof.
  intros Hrate Hc. unfold Growth.calculate_compound_interest.
  rewrite value_after_zero_rate; [reflexivity | | exact Hc].
  rewrite Hrate. reflexivity.
Qed.

Lemma growth_nothing_invested_raises (args : Growth.GrowthRequest) :
  Growth.principal args == 0 -> Growth.monthly_contribution args == 0 ->
  ~ 1 + Growth.annual_rate args / 100 / 12 == 0 ->
  Growth.calculate_compound_interest args = Raise ZeroDivisionError.
Proof.
  intros Hp Hc Hx. unfold Growth.calculate_compound_interest.
  rewrite (value_after_returns _ _ _ _ Hx) by (intro H; exfalso; lra).
  cbn [Py.bind]. rewrite truediv_zero; [reflexivity |].
  rewrite Hp, Hc. ring.
Qed.

Lemma for_each_keys {A B : Type} (f : A -> outcome B) (xs : list A) (ys : list (A * B)) :
  Py.for_each (fun x => v <- f x ;; Return (x, v)) xs = Return ys ->
  map fst ys = xs.
Proof.
  revert ys. induction xs as [| x xs IH]; intros ys H.
  - injection H as <-. reflexivity.
  - cbn [Py.for_each] in H.
    destruct (f x) as [v |]; [| discriminate]. cbn [Py.bind] in H.
    destruct (Py.for_each _ xs) as [rest |]; [| discriminate].
    cbn [Py.bind] in H. injection H as <-.
    cbn [map fst]. f_equal. apply IH. reflexivity.
Qed.

(** The year-by-year breakdown has one row per year of the stride: every
    year up to 10 years, every fifth year beyond, the last year included
    only when it falls on the stride. *)
Lemma breakdown_years (args : Growth.GrowthRequest) (r : Growth.GrowthResult) :
  Growth.calculate_compound_interest args = Return r ->
  map fst (Growth.breakdown r)
  = let step := if (10 <? Growth.years args)%Z then 5%Z else 1%Z in
    Py.range step (Growth.years args + 1) step.
Proof.
  unfold Growth.calculate_compound_interest.
  destruct (Growth.value_after _ _ _ _) as [fv |]; [| discriminate]. cbn [Py.bind].
  destruct (Py.truediv _ _) as [roi |]; [| discriminate]. cbn [Py.bind].
  destruct (Py.for_each _ _) as [rows |] eqn:E; [| discriminate]. cbn [Py.bind].
  intro H. injection H as <-. cbn [Growth.breakdown].
  apply for_each_keys in E. exact E.
Qed.

Lemma monthly_rate_scale (rate : Q) : rate / 100 / 12 == rate * (1 # 1200).
Proof. field. Qed.

Lemma invested_positive (p c : Q) (y : Z) :
  0 <= p -> 0 <= c -> 0 < p + c -> (1 <= y)%Z ->
  0 < p + c * inject_Z (y * 12).
Proof.
  intros Hp Hc Hpc Hy.
  assert (Hk : 1 <= inject_Z (y * 12)).
  { change 1 with (inject_Z 1). rewrite <- Zle_Qle. lia. }
  nra.
Qed.

(** C1.  With an annual rate of 0 and a positive monthly contribution the
    annuity factor is computed as [(1 ** months - 1) / 0]: the calculator
    raises [ZeroDivisionError] instead of returning principal plus
    contributions. *)
Theorem growth_zero_rate_division (args : Growth.GrowthRequest) :
  Growth.annual_rate args == 0 -> 0 < Growth.monthly_contribution args ->
  Growth.calculate_compound_interest args = Raise ZeroDivisionError.
Proof. exact (growth_zero_rate_raises args). Qed.

Lemma growth_zero_rate_division_witness :
  Growth.calculate_compound_interest
    {| Growth.principal := 1000; Growth.annual_rate := 0; Growth.years := 10;
       Growth.monthly_contribution := 100 |} = Raise ZeroDivisionError.
Proof.
  apply (growth_zero_rate_division
           {| Growth.principal := 1000; Growth.annual_rate := 0; Growth.years := 10;
              Growth.monthly_contribution := 100 |}).
  - reflexivity.
  - reflexivity.
Defined.

(** C7, as stated, fails.  At -12 % a year, with no contributions, 1000
    is worth less after two years than after one. *)
Lemma growth_not_monotone_in_years :
  let one := {| Growth.principal := 1000; Growth.annual_rate := -12;
                Growth.years := 1; Growth.monthly_contribution := 0 |} in
  let two := {| Growth.principal := 1000; Growth.annual_rate := -12;
                Growth.years := 2; Growth.monthly_contribution := 0 |} in
  -100 < Growth.annual_rate one
  /\ exists r1 r2,
       Growth.calculate_compound_interest one = Return r1
       /\ Growth.calculate_compound_interest two = Return r2
       /\ Growth.total_fv r2 < Growth.total_fv r1.
Proof.
  cbv zeta. split; [reflexivity |].
  destruct (growth_returns
              {| Growth.principal := 1000; Growth.annual_rate := -12;
                 Growth.years := 1; Growth.monthly_contribution := 0 |})
    as (r1 & H1 & F1 & _); try (cbn; discriminate).
  destruct (growth_returns
              {| Growth.principal := 1000; Growth.annual_rate := -12;
                 Growth.years := 2; Growth.monthly_contribution := 0 |})
    as (r2 & H2 & F2 & _); try (cbn; discriminate).
  exists r1, r2. split; [exact H1 |]. split; [exact H2 |].
  rewrite F1, F2. vm_compute. reflexivity.
Qed.

(** C7, amended.  For a principal and a monthly contribution that are not
    negative and not both zero, an annual rate that is not negative, a
    monthly rate other than 0 when there is a contribution, and at least
    one year, the calculator returns and its future value is
    non-decreasing in the number of years.  With a positive principal and
    no monthly contribution the future value is non-decreasing in the
    annual rate over rates above -100. *)
Theorem growth_monotone :
  (forall p c rate y1 y2,
      0 <= p -> 0 <= c -> 0 < p + c ->
      0 <= rate -> (0 < c -> ~ rate / 100 / 12 == 0) ->
      (1 <= y1 <= y2)%Z ->
      exists r1 r2,
        Growth.calculate_compound_interest
          {| Growth.principal := p; Growth.annual_rate := rate;
             Growth.years := y1; Growth.monthly_contribution := c |} = Return r1
        /\ Growth.calculate_compound_interest
             {| Growth.principal := p; Growth.annual_rate := rate;
                Growth.years := y2; Growth.monthly_contribution := c |} = Return r2
        /\ Growth.total_fv r1 <= Growth.total_fv r2)
  /\ (forall p rate1 rate2 y,
         0 < p -> -100 < rate1 -> rate1 <= rate2 -> (1 <= y)%Z ->
         exists r1 r2,
           Growth.calculate_compound_interest
             {| Growth.principal := p; Growth.annual_rate := rate1;
                Growth.years := y; Growth.monthly_contribution := 0 |} = Return r1
           /\ Growth.calculate_compound_interest
                {| Growth.principal := p; Growth.annual_rate := rate2;
                   Growth.years := y; Growth.monthly_contribution := 0 |} = Return r2
           /\ Growth.total_fv r1 <= Growth.total_fv r2).
Proof.
  split.
  - intros p c rate y1 y2 Hp Hc Hpc Hrate Hr0 [Hy1 Hy12].
    pose proof (monthly_rate_scale rate) as Hr.
    assert (Hx : 0 < 1 + rate / 100 / 12) by (rewrite Hr; lra).
    assert (Hs : 0 <= p * (rate / 100 / 12) + c) by (rewrite Hr; nra).
    destruct (growth_returns
                {| Growth.principal := p; Growth.annual_rate := rate;
                   Growth.years := y1; Growth.monthly_contribution := c |})
      as (r1 & H1 & F1 & _); cbn.
    { lra. } { exact Hr0. }
    { pose proof (invested_positive p c y1 Hp Hc Hpc Hy1). lra. }
    destruct (growth_returns
                {| Growth.principal := p; Growth.annual_rate := rate;
                   Growth.years := y2; Growth.monthly_contribution := c |})
      as (r2 & H2 & F2 & _); cbn.
    { lra. } { exact Hr0. }
    { pose proof (invested_positive p c y2 Hp Hc Hpc ltac:(lia)). lra. }
    exists r1, r2. split; [exact H1 |]. split; [exact H2 |].
    rewrite F1, F2. cbn.
    rewrite <- (Z2Nat.id (y1 * 12)), <- (Z2Nat.id (y2 * 12)) by lia.
    apply closed_form_mono_months; try assumption. lia.
  - intros p rate1 rate2 y Hp Hlo H12 Hy.
    pose proof (monthly_rate_scale rate1) as Hr1.
    pose proof (monthly_rate_scale rate2) as Hr2.
    assert (Hx1 : 0 < 1 + rate1 / 100 / 12) by (rewrite Hr1; lra).
    assert (Hx2 : 0 < 1 + rate2 / 100 / 12) by (rewrite Hr2; lra).
    assert (Hc0 : 0 < 0 -> False) by (intro H; lra).
    pose proof (invested_positive p 0 y ltac:(lra) ltac:(lra) ltac:(lra) Hy) as Hinv.
    destruct (growth_returns
                {| Growth.principal := p; Growth.annual_rate := rate1;
                   Growth.years := y; Growth.monthly_contribution := 0 |})
      as (r1 & H1 & F1 & _); cbn.
    { lra. } { intro H0. destruct (Hc0 H0). } { lra. }
    destruct (growth_returns
                {| Growth.principal := p; Growth.annual_rate := rate2;
                   Growth.years := y; Growth.monthly_contribution := 0 |})
      as (r2 & H2 & F2 & _); cbn.
    { lra. } { intro H0. destruct (Hc0 H0). } { lra. }
    exists r1, r2. split; [exact H1 |]. split; [exact H2 |].
    rewrite F1, F2. cbn.
    rewrite <- (Z2Nat.id (y * 12)) by lia.
    apply closed_form_mono_rate; lra.
Qed.

Lemma growth_monotone_witness :
  (exists r1 r2,
      Growth.calculate_compound_interest
        {| Growth.principal := 10000; Growth.annual_rate := 8;
           Growth.years := 10; Growth.monthly_contribution := 500 |} = Return r1
      /\ Growth.calculate_compound_interest
           {| Growth.principal := 10000; Growth.annual_rate := 8;
              Growth.years := 20; Growth.monthly_contribution := 500 |} = Return r2
      /\ Growth.total_fv r1 <= Growth.total_fv r2)
  /\ (exists r1 r2,
         Growth.calculate_compound_interest
           {| Growth.principal := 1000; Growth.annual_rate := -6;
              Growth.years := 10; Growth.monthly_contribution := 0 |} = Return r1
         /\ Growth.calculate_compound_interest
              {| Growth.principal := 1000; Growth.annual_rate := 7;
                 Growth.years := 10; Growth.monthly_contribution := 0 |} = Return r2
         /\ Growth.total_fv r1 <= Growth.total_fv r2).
Proof.
  split.
  - apply (proj1 growth_monotone 10000 500 8 10%Z 20%Z).
    + discriminate.
    + discriminate.
    + reflexivity.
    + discriminate.
    + intros _. discriminate.
    + split; discriminate.
  - apply (proj2 growth_monotone 1000 (-6) 7 10%Z).
    + reflexivity.
    + reflexivity.
    + discriminate.
    + discriminate.
Defined.

(** ** Retirement *)

Lemma projected_savings_value (args : Retirement.RetirementRequest) :
  ~ 1 + Retirement.expected_return args / 100 == 0 ->
  Retirement.projected_savings args
  = Return (Retirement.current_savings args
            * (1 + Retirement.expected_return args / 100)
              ^ (Retirement.retirement_age args - Retirement.current_age args)).
Proof.
  intro Hx. unfold Retirement.projected_savings.
  rewrite (pow_nonzero_base _ _ Hx). reflexivity.
Qed.

Lemma retirement_zero_return_raises (args : Retirement.RetirementRequest) :
  Retirement.expected_return args == 0 ->
  Retirement.current_savings args < Retirement.desired_annual_income args * 25 ->
  Retirement.calculate_retirement_needs args = Raise ZeroDivisionError.
Proof.
  intros Hret Hgap.
  assert (Hy : 1 + Retirement.expected_return args / 100 == 1) by (rewrite Hret; field).
  assert (Hm : 1 + Retirement.expected_return args / 100 / 12 == 1) by (rewrite Hret; field).
  unfold Retirement.calculate_retirement_needs.
  rewrite projected_savings_value by (rewrite Hy; discriminate).
  cbn [Py.bind].
  match goal with
  | |- context [Py.lt 0 ?x] => assert (Hlt : Py.lt 0 x = true)
  end.
  { apply lt_true_iff. rewrite Hy, Qpower_1. lra. }
  rewrite Hlt.
  rewrite pow_nonzero_base by (rewrite Hm; discriminate).
  cbn [Py.bind].
  rewrite truediv_zero; [reflexivity |].
  rewrite Hm, Qpower_1. ring.
Qed.

(** C2.  Neither zero denominator has a branch of its own.  With nothing
    invested the return-on-investment division raises [ZeroDivisionError],
    and so does the retirement solver's payment division at an expected
    return of 0 when more savings are needed; both exceptions leave the
    calculator. *)
Theorem zero_denominators_raise :
  Growth.calculate_compound_interest
    {| Growth.principal := 0; Growth.annual_rate := 5; Growth.years := 10;
       Growth.monthly_contribution := 0 |} = Raise ZeroDivisionError
  /\ Retirement.calculate_retirement_needs
       {| Retirement.current_age := 30; Retirement.retirement_age := 65;
          Retirement.current_savings := 0;
          Retirement.desired_annual_income := 40000;
          Retirement.expected_return := 0 |} = Raise ZeroDivisionError.
Proof.
  split.
  - apply growth_nothing_invested_raises; cbn; try reflexivity. discriminate.
  - apply retirement_zero_return_raises; cbn; reflexivity.
Qed.

(** C6.  When the projected value of the current savings is at least the
    corpus needed (25 times the desired annual income), the solver returns,
    the additional savings it reports are 0 and the required monthly saving
    is 0. *)
Theorem retirement_on_track (args : Retirement.RetirementRequest) (fv : Q) :
  Retirement.projected_savings args = Return fv ->
  Retirement.desired_annual_income args * 25 <= fv ->
  exists r, Retirement.calculate_retirement_needs args = Return r
            /\ Retirement.fv_current r = fv
            /\ Retirement.retirement_corpus r = Retirement.desired_annual_income args * 25
            /\ Retirement.additional_savings_needed r = 0
            /\ Retirement.monthly_contribution r = 0.
Proof.
  intros Hfv Hle. unfold Retirement.calculate_retirement_needs.
  rewrite Hfv. cbn [Py.bind].
  assert (Hlt : Py.lt 0 (Retirement.desired_annual_income args * 25 - fv) = false)
    by (apply lt_false_iff; lra).
  rewrite Hlt. cbn [Py.bind].
  eexists. split; [reflexivity |].
  cbn [Retirement.fv_current Retirement.retirement_corpus
       Retirement.additional_savings_needed Retirement.monthly_contribution].
  unfold Py.max0. rewrite Hlt. repeat split.
Qed.

Lemma retirement_on_track_witness :
  exists r, Retirement.calculate_retirement_needs
              {| Retirement.current_age := 60; Retirement.retirement_age := 65;
                 Retirement.current_savings := 2000000;
                 Retirement.desired_annual_income := 40000;
                 Retirement.expected_return := 5 |} = Return r
            /\ Retirement.additional_savings_needed r = 0
            /\ Retirement.monthly_contribution r = 0.
Proof.
  destruct (retirement_on_track
              {| Retirement.current_age := 60; Retirement.retirement_age := 65;
                 Retirement.current_savings := 2000000;
                 Retirement.desired_annual_income := 40000;
                 Retirement.expected_return := 5 |}
              (2000000 * (1 + 5 / 100) ^ 5))
    as (r & Hr & _ & _ & Ha & Hm).
  - reflexivity.
  - vm_compute. discriminate.
  - exists r. split; [exact Hr |]. split; [exact Ha | exact Hm].
Defined.

(** ** Stock metrics *)

Lemma spec_dividend_never_warning (y : Q) : Stock.spec_dividend y <> Stock.warning.
Proof.
  unfold Stock.spec_dividend.
  destruct (Py.lt 3 y); [discriminate |]. destruct (Py.lt 1 y); discriminate.
Qed.

(** C4.  The classifier returns four signals, one per metric in the order
    P/E, dividend yield, revenue growth, debt-to-equity, each carrying the
    mark of the label its thresholds give; the dividend-yield signal is
    never a warning; the counts are those of the favorable and warning
    labels; and the assessment begins with the verdict of the rule
    "favorable >= 3: POSITIVE, else warning >= 2: CAUTIOUS, else NEUTRAL".
    With pe 14.9, dividend yield 3.1, revenue growth 21 and debt-to-equity
    0.4 all four signals are favorable and the verdict is POSITIVE. *)
Theorem stock_verdict :
  (forall args, exists r,
      Stock.evaluate_stock_metrics args = Return r
      /\ map Stock.label_of_signal (Stock.signals r)
         = map Some (Stock.spec_labels args)
      /\ nth 1 (map Stock.label_of_signal (Stock.signals r)) None
         <> Some Stock.warning
      /\ Stock.positive_signals r
         = length (filter (Stock.label_eqb Stock.favorable) (Stock.spec_labels args))
      /\ Stock.warning_signals r
         = length (filter (Stock.label_eqb Stock.warning) (Stock.spec_labels args))
      /\ String.prefix
           (Stock.verdict_word (Stock.spec_verdict (Stock.spec_labels args)))
           (Stock.overall r) = true)
  /\ (exists r,
        Stock.evaluate_stock_metrics
          {| Stock.stock_name := "TechCorp"; Stock.current_price := 125;
             Stock.pe_ratio := 149 # 10; Stock.dividend_yield := 31 # 10;
             Stock.revenue_growth := 21; Stock.debt_to_equity := 4 # 10 |} = Return r
        /\ map Stock.label_of_signal (Stock.signals r)
           = [Some Stock.favorable; Some Stock.favorable;
              Some Stock.favorable; Some Stock.favorable]
        /\ Stock.positive_signals r = 4%nat
        /\ Stock.overall r = "POSITIVE - Multiple favorable indicators"%string).
Proof.
  split.
  - intro args. eexists. split; [reflexivity |].
    unfold Stock.spec_labels, Stock.spec_pe, Stock.spec_dividend,
      Stock.spec_growth, Stock.spec_debt.
    cbn [Stock.signals Stock.positive_signals Stock.warning_signals Stock.overall].
    destruct (Py.lt (Stock.pe_ratio args) 15);
      [| destruct (Py.lt (Stock.pe_ratio args) 25)];
      (destruct (Py.lt 3 (Stock.dividend_yield args));
        [| destruct (Py.lt 1 (Stock.dividend_yield args))]);
      (destruct (Py.lt 20 (Stock.revenue_growth args));
        [| destruct (Py.lt 10 (Stock.revenue_growth args));
           [| destruct (Py.lt 0 (Stock.revenue_growth args))]]);
      (destruct (Py.lt (Stock.debt_to_equity args) (1 # 2));
        [| destruct (Py.lt (Stock.debt_to_equity args) (3 # 2))]);
      (repeat split; try reflexivity; cbn; discriminate).
  - eexists. split; [reflexivity |]. repeat split.
Qed.

(** ** Comparison *)

Lemma risk_score_nonzero (key : string) :
  ~ Py.dict_get Comparison.risk_scores key 2 == 0.
Proof.
  unfold Comparison.risk_scores. cbn [Py.dict_get].
  destruct (String.eqb "low" key); [discriminate |].
  destruct (String.eqb "medium" key); [discriminate |].
  destruct (String.eqb "high" key); discriminate.
Qed.

(** The comparator returns whenever both powers are defined; the winner by
    value is decided by [fv_a > fv_b] alone. *)
Lemma compare_returns (args : Comparison.ComparisonRequest) (pa pb : Q) :
  Py.pow (1 + Comparison.option_a_return args / 100) (Comparison.time_horizon args)
  = Return pa ->
  Py.pow (1 + Comparison.option_b_return args / 100) (Comparison.time_horizon args)
  = Return pb ->
  exists r,
    Comparison.compare_investment_options args = Return r
    /\ Comparison.fv_a r = Comparison.investment_amount args * pa
    /\ Comparison.fv_b r = Comparison.investment_amount args * pb
    /\ Comparison.comparison r
       = (if Py.lt (Comparison.fv_b r) (Comparison.fv_a r) then
            Comparison.option_a_name args ++ " will be $"
              ++ Py.format_money (Comparison.fv_a r - Comparison.fv_b r)
              ++ " higher than " ++ Comparison.option_b_name args
              ++ Comparison.newline
          else
            Comparison.option_b_name args ++ " will be $"
              ++ Py.format_money (Comparison.fv_b r - Comparison.fv_a r)
              ++ " higher than " ++ Comparison.option_a_name args
              ++ Comparison.newline)%string.
Proof.
  intros Ha Hb. unfold Comparison.compare_investment_options.
  rewrite Ha. cbn [Py.bind]. rewrite Hb. cbn [Py.bind].
  rewrite !truediv_nonzero by apply risk_score_nonzero.
  cbn [Py.bind]. eexists. split; [reflexivity |].
  repeat split.
Qed.

(** C10.  When the two future values are equal, the comparison line of the
    report says that option B will be $0.00 higher than option A. *)
Theorem equal_values_attributed_to_b
  (args : Comparison.ComparisonRequest) (pa pb : Q) :
  Py.pow (1 + Comparison.option_a_return args / 100) (Comparison.time_horizon args)
  = Return pa ->
  Py.pow (1 + Comparison.option_b_return args / 100) (Comparison.time_horizon args)
  = Return pb ->
  Comparison.investment_amount args * pa == Comparison.investment_amount args * pb ->
  exists r,
    Comparison.compare_investment_options args = Return r
    /\ Comparison.fv_a r == Comparison.fv_b r
    /\ Comparison.comparison r
       = (Comparison.option_b_name args ++ " will be $0.00 higher than "
            ++ Comparison.option_a_name args ++ Comparison.newline)%string.
Proof.
  intros Ha Hb Heq.
  destruct (compare_returns args pa pb Ha Hb) as (r & Hr & Fa & Fb & Hc).
  exists r. split; [exact Hr |].
  assert (Hfv : Comparison.fv_a r == Comparison.fv_b r) by (rewrite Fa, Fb; exact Heq).
  split; [exact Hfv |].
  rewrite Hc.
  assert (Hlt : Py.lt (Comparison.fv_b r) (Comparison.fv_a r) = false)
    by (apply lt_false_iff; lra).
  rewrite Hlt, format_money_zero by lra.
  reflexivity.
Qed.

Lemma equal_values_attributed_to_b_witness :
  exists r,
    Comparison.compare_investment_options
      {| Comparison.option_a_name := "Index Fund";
         Comparison.option_a_return := 7;
         Comparison.option_a_risk := "medium";
         Comparison.option_b_name := "Bond Ladder";
         Comparison.option_b_return := 7;
         Comparison.option_b_risk := "low";
         Comparison.investment_amount := 10000;
         Comparison.time_horizon := 10 |} = Return r
    /\ Comparison.comparison r
       = ("Bond Ladder will be $0.00 higher than Index Fund"
            ++ Comparison.newline)%string.
Proof.
  destruct (equal_values_attributed_to_b
              {| Comparison.option_a_name := "Index Fund";
                 Comparison.option_a_return := 7;
                 Comparison.option_a_risk := "medium";
                 Comparison.option_b_name := "Bond Ladder";
                 Comparison.option_b_return := 7;
                 Comparison.option_b_risk := "low";
                 Comparison.investment_amount := 10000;
                 Comparison.time_horizon := 10 |}
              ((1 + 7 / 100) ^ 10) ((1 + 7 / 100) ^ 10))
    as (r & Hr & _ & Hc).
  - reflexivity.
  - reflexivity.
  - reflexivity.
  - exists r. split; [exact Hr | exact Hc].
Defined.

(** C5.  The threshold is [score > other * 1.2], which for negative scores
    lies below the other score.  Two options with the same return of 1 %
    and the same risk have equal scores of -0.5, yet option A is
    recommended; and when option A returns 0.9 %, so that its score -0.55
    is the lower of the two, option A is still the one recommended. *)
Theorem comparable_options_named_winner :
  (exists r,
      Comparison.compare_investment_options
        {| Comparison.option_a_name := "Fund A";
           Comparison.option_a_return := 1;
           Comparison.option_a_risk := "medium";
           Comparison.option_b_name := "Fund B";
           Comparison.option_b_return := 1;
           Comparison.option_b_risk := "medium";
           Comparison.investment_amount := 1000;
           Comparison.time_horizon := 10 |} = Return r
      /\ Comparison.risk_adj_return_a r == - (1 # 2)
      /\ Comparison.risk_adj_return_b r == - (1 # 2)
      /\ Comparison.recommendation r = Comparison.recommends "Fund A"
      /\ Comparison.recommendation r <> Comparison.comparable_text)
  /\ (exists r,
        Comparison.compare_investment_options
          {| Comparison.option_a_name := "Fund A";
             Comparison.option_a_return := 9 # 10;
             Comparison.option_a_risk := "medium";
             Comparison.option_b_name := "Fund B";
             Comparison.option_b_return := 1;
             Comparison.option_b_risk := "medium";
             Comparison.investment_amount := 1000;
             Comparison.time_horizon := 10 |} = Return r
        /\ Comparison.risk_adj_return_a r == - (11 # 20)
        /\ Comparison.risk_adj_return_b r == - (1 # 2)
        /\ Comparison.risk_adj_return_a r < Comparison.risk_adj_return_b r
        /\ Comparison.recommendation r = Comparison.recommends "Fund A").
Proof.
  split.
  - eexists. split; [reflexivity |].
    cbn [Comparison.risk_adj_return_a Comparison.risk_adj_return_b
         Comparison.recommendation].
    repeat split; try (vm_compute; reflexivity). vm_compute. discriminate.
  - eexists. split; [reflexivity |].
    cbn [Comparison.risk_adj_return_a Comparison.risk_adj_return_b
         Comparison.recommendation].
    repeat split; vm_compute; reflexivity.
Qed.

(** Where both scores are not negative the margin works as described: a
    single option is named only when its score is the higher one and is
    more than 1.2 times the other's; otherwise the options are declared
    comparable. *)
Lemma recommendation_nonnegative_scores
  (args : Comparison.ComparisonRequest) (r : Comparison.ComparisonResult) :
  Comparison.compare_investment_options args = Return r ->
  0 <= Comparison.risk_adj_return_a r -> 0 <= Comparison.risk_adj_return_b r ->
  (Comparison.risk_adj_return_b r < Comparison.risk_adj_return_a r
   /\ Comparison.risk_adj_return_b r * (6 # 5) < Comparison.risk_adj_return_a r
   /\ Comparison.recommendation r = Comparison.recommends (Comparison.option_a_name args))
  \/ (Comparison.risk_adj_return_a r < Comparison.risk_adj_return_b r
      /\ Comparison.risk_adj_return_a r * (6 # 5) < Comparison.risk_adj_return_b r
      /\ Comparison.recommendation r = Comparison.recommends (Comparison.option_b_name args))
  \/ (Comparison.risk_adj_return_a r <= Comparison.risk_adj_return_b r * (6 # 5)
      /\ Comparison.risk_adj_return_b r <= Comparison.risk_adj_return_a r * (6 # 5)
      /\ Comparison.recommendation r = Comparison.comparable_text).
Proof.
  unfold Comparison.compare_investment_options.
  destruct (Py.pow _ _) as [pa |]; [| discriminate]. cbn [Py.bind].
  destruct (Py.pow _ _) as [pb |]; [| discriminate]. cbn [Py.bind].
  rewrite !truediv_nonzero by apply risk_score_nonzero. cbn [Py.bind].
  intros H. injection H as <-.
  cbn [Comparison.risk_adj_return_a Comparison.risk_adj_return_b
       Comparison.recommendation].
  intros Ha Hb.
  match goal with
  | |- context [Py.lt ?x ?y] => destruct (Py.lt x y) eqn:E1
  end.
  - left. apply lt_true_iff in E1. split; [lra |]. split; [exact E1 | reflexivity].
  - match goal with
    | |- context [if Py.lt ?x ?y then _ else _] => destruct (Py.lt x y) eqn:E2
    end.
    + right. left. apply lt_true_iff in E2.
      split; [lra |]. split; [exact E2 | reflexivity].
    + right. right. apply lt_false_iff in E1. apply lt_false_iff in E2.
      split; [exact E1 |]. split; [exact E2 | reflexivity].
Qed.

(** * Further properties of the calculators *)

(** ** Allocation *)

Lemma lower_ascii_idempotent (c : ascii) :
  Py.lower_ascii (Py.lower_ascii c) = Py.lower_ascii c.
Proof.
  destruct c as [[] [] [] [] [] [] [] []]; reflexivity.
Qed.

Lemma lower_idempotent (s : string) : Py.lower (Py.lower s) = Py.lower s.
Proof.
  induction s as [| c s IH]; [reflexivity |].
  cbn [Py.lower]. rewrite lower_ascii_idempotent, IH. reflexivity.
Qed.

(** The risk tolerance is read without regard to case: a request and the
    same request with the risk string lower-cased give the same result. *)
Theorem allocation_case_insensitive (a : Z) (s : string) (t : Q) :
  Allocation.calculate_portfolio_allocation
    {| Allocation.age := a; Allocation.risk_tolerance := s;
       Allocation.total_amount := t |}
  = Allocation.calculate_portfolio_allocation
      {| Allocation.age := a; Allocation.risk_tolerance := Py.lower s;
         Allocation.total_amount := t |}.
Proof.
  unfold Allocation.calculate_portfolio_allocation.
  cbn [Allocation.age Allocation.risk_tolerance Allocation.total_amount].
  rewrite lower_idempotent. reflexivity.
Qed.

Lemma stock_pct_of (a : Z) (s : string) (t : Q) :
  exists r, Allocation.calculate_portfolio_allocation
              {| Allocation.age := a; Allocation.risk_tolerance := s;
                 Allocation.total_amount := t |} = Return r
            /\ Allocation.stock_pct r
               = Allocation.spec_stock_pct a (Allocation.tolerance_of s)
            /\ Allocation.bond_pct r = (100 - Allocation.stock_pct r)%Z
            /\ Allocation.stock_amount r == t * (inject_Z (Allocation.stock_pct r) / 100)
            /\ Allocation.bond_amount r == t * (inject_Z (Allocation.bond_pct r) / 100).
Proof.
  exact (allocation_returns {| Allocation.age := a; Allocation.risk_tolerance := s;
                               Allocation.total_amount := t |}).
Qed.

(** For an age from 0 to 100 both percentages lie between 0 and 100
    whatever the risk string, and with a non-negative total neither dollar
    amount is negative or exceeds the total. *)
Theorem allocation_within_bounds (args : Allocation.AllocationRequest) :
  (0 <= Allocation.age args <= 100)%Z -> 0 <= Allocation.total_amount args ->
  exists r, Allocation.calculate_portfolio_allocation args = Return r
    /\ (0 <= Allocation.stock_pct r <= 100)%Z
    /\ (0 <= Allocation.bond_pct r <= 100)%Z
    /\ 0 <= Allocation.stock_amount r <= Allocation.total_amount args
    /\ 0 <= Allocation.bond_amount r <= Allocation.total_amount args.
Proof.
  intros Hage Ht.
  destruct (allocation_returns args) as (r & Hr & Hs & Hb & Hsa & Hba).
  exists r. split; [exact Hr |].
  assert (Hsp : (0 <= Allocation.stock_pct r <= 100)%Z).
  { rewrite Hs. unfold Allocation.spec_stock_pct.
    destruct (Allocation.tolerance_of _); lia. }
  assert (Hbp : (0 <= Allocation.bond_pct r <= 100)%Z) by lia.
  split; [exact Hsp |]. split; [exact Hbp |].
  assert (Hq : forall z : Z, (0 <= z <= 100)%Z -> 0 <= inject_Z z / 100 <= 1).
  { intros z [H0 H1]. rewrite Zle_Qle in H0, H1.
    change (inject_Z 0) with 0 in H0. change (inject_Z 100) with 100 in H1.
    split.
    - apply Qle_shift_div_l; lra.
    - apply Qle_shift_div_r; lra. }
  pose proof (Hq _ Hsp) as [Hs0 Hs1]. pose proof (Hq _ Hbp) as [Hb0 Hb1].
  rewrite Hsa, Hba. repeat split; nra.
Qed.

Lemma allocation_within_bounds_witness :
  exists r, Allocation.calculate_portfolio_allocation
              {| Allocation.age := 32; Allocation.risk_tolerance := "aggressive";
                 Allocation.total_amount := 50000 |} = Return r
    /\ (0 <= Allocation.stock_pct r <= 100)%Z.
Proof.
  destruct (allocation_within_bounds
              {| Allocation.age := 32; Allocation.risk_tolerance := "aggressive";
                 Allocation.total_amount := 50000 |})
    as (r & Hr & Hs & _).
  - cbn. lia.
  - cbn. discriminate.
  - exists r. split; [exact Hr | exact Hs].
Defined.

(** The three risk levels are ordered as their names suggest only for
    middle ages.  Conservative holds no more stocks than moderate exactly
    when the age is at most 80 (the floor of 20 lifts it above moderate
    beyond that); moderate holds no more than aggressive exactly when the
    age is at least 10 (the cap of 90 pulls aggressive below moderate
    before that); and conservative holds no more than aggressive exactly
    for ages from -5 to 95. *)
Theorem allocation_risk_order (a : Z) (t : Q) :
  exists rc rm ra,
    Allocation.calculate_portfolio_allocation
      {| Allocation.age := a; Allocation.risk_tolerance := "conservative";
         Allocation.total_amount := t |} = Return rc
    /\ Allocation.calculate_portfolio_allocation
         {| Allocation.age := a; Allocation.risk_tolerance := "moderate";
            Allocation.total_amount := t |} = Return rm
    /\ Allocation.calculate_portfolio_allocation
         {| Allocation.age := a; Allocation.risk_tolerance := "aggressive";
            Allocation.total_amount := t |} = Return ra
    /\ ((Allocation.stock_pct rc <= Allocation.stock_pct rm)%Z <-> (a <= 80)%Z)
    /\ ((Allocation.stock_pct rm <= Allocation.stock_pct ra)%Z <-> (10 <= a)%Z)
    /\ ((Allocation.stock_pct rc <= Allocation.stock_pct ra)%Z <-> (-5 <= a <= 95)%Z).
Proof.
  destruct (stock_pct_of a "conservative" t) as (rc & Hc & Sc & _).
  destruct (stock_pct_of a "moderate" t) as (rm & Hm & Sm & _).
  destruct (stock_pct_of a "aggressive" t) as (ra & Ha & Sa & _).
  exists rc, rm, ra. repeat (split; [assumption |]).
  rewrite Sc, Sm, Sa.
  change (Allocation.tolerance_of "conservative") with Allocation.conservative.
  change (Allocation.tolerance_of "moderate") with Allocation.moderate.
  change (Allocation.tolerance_of "aggressive") with Allocation.aggressive.
  unfold Allocation.spec_stock_pct. lia.
Qed.

(** For a fixed risk string the stock percentage never rises with age, and
    the bond percentage never falls. *)
Theorem allocation_monotone_in_age (a1 a2 : Z) (s : string) (t : Q) :
  (a1 <= a2)%Z ->
  exists r1 r2,
    Allocation.calculate_portfolio_allocation
      {| Allocation.age := a1; Allocation.risk_tolerance := s;
         Allocation.total_amount := t |} = Return r1
    /\ Allocation.calculate_portfolio_allocation
         {| Allocation.age := a2; Allocation.risk_tolerance := s;
            Allocation.total_amount := t |} = Return r2
    /\ (Allocation.stock_pct r2 <= Allocation.stock_pct r1)%Z
    /\ (Allocation.bond_pct r1 <= Allocation.bond_pct r2)%Z.
Proof.
  intro Hle.
  destruct (stock_pct_of a1 s t) as (r1 & H1 & S1 & B1 & _).
  destruct (stock_pct_of a2 s t) as (r2 & H2 & S2 & B2 & _).
  exists r1, r2. split; [exact H1 |]. split; [exact H2 |].
  assert (Allocation.stock_pct r2 <= Allocation.stock_pct r1)%Z.
  { rewrite S1, S2. unfold Allocation.spec_stock_pct.
    destruct (Allocation.tolerance_of s); lia. }
  split; lia.
Qed.

Lemma allocation_monotone_in_age_witness :
  exists r1 r2,
    Allocation.calculate_portfolio_allocation
      {| Allocation.age := 30; Allocation.risk_tolerance := "Conservative";
         Allocation.total_amount := 1000 |} = Return r1
    /\ Allocation.calculate_portfolio_allocation
         {| Allocation.age := 70; Allocation.risk_tolerance := "Conservative";
            Allocation.total_amount := 1000 |} = Return r2
    /\ (Allocation.stock_pct r2 <= Allocation.stock_pct r1)%Z.
Proof.
  destruct (allocation_monotone_in_age 30 70 "Conservative" 1000)
    as (r1 & r2 & H1 & H2 & Hs & _).
  - lia.
  - exists r1, r2. split; [exact H1 |]. split; [exact H2 | exact Hs].
Defined.

(** ** Compound growth *)

Lemma range_spec (start stop step y : Z) :
  (0 < step)%Z ->
  In y (Py.range start stop step)
  <-> (start <= y < stop)%Z /\ ((y - start) mod step = 0)%Z.
Proof.
  intro Hstep. unfold Py.range. rewrite in_map_iff. split.
  - intros (i & <- & Hi). apply in_seq in Hi. destruct Hi as [_ Hi]. cbn in Hi.
    destruct (start <? stop)%Z eqn:E; [| cbn in Hi; lia].
    apply Z.ltb_lt in E.
    assert (Hn : (Z.of_nat i < (stop - start + step - 1) / step)%Z) by lia.
    pose proof (Z.mul_div_le (stop - start + step - 1) step Hstep).
    split; [nia |].
    replace (start + Z.of_nat i * step - start)%Z with (Z.of_nat i * step)%Z by lia.
    apply Z_mod_mult.
  - intros [[Hlo Hhi] Hmod].
    apply Z.mod_divide in Hmod; [| lia]. destruct Hmod as [k Hk].
    assert (Hk0 : (0 <= k)%Z) by nia.
    exists (Z.to_nat k). split; [rewrite Z2Nat.id by lia; lia |].
    apply in_seq. split; [lia |]. cbn.
    assert (E : (start <? stop)%Z = true) by (apply Z.ltb_lt; lia).
    rewrite E.
    assert ((k + 1) <= (stop - start + step - 1) / step)%Z
      by (apply Z.div_le_lower_bound; nia).
    lia.
Qed.

Lemma for_each_rows {A B : Type} (f : A -> outcome B) (xs : list A) (ys : list (A * B)) :
  Py.for_each (fun x => v <- f x ;; Return (x, v)) xs = Return ys ->
  (forall x v, In (x, v) ys -> f x = Return v)
  /\ (forall x, In x xs -> exists v, In (x, v) ys).
Proof.
  revert ys. induction xs as [| x xs IH]; intros ys H.
  - injection H as <-. split; [intros ? ? [] | intros ? []].
  - cbn [Py.for_each] in H.
    destruct (f x) as [v |] eqn:Ex; [| discriminate]. cbn [Py.bind] in H.
    destruct (Py.for_each _ xs) as [rest |] eqn:Er; [| discriminate].
    cbn [Py.bind] in H. injection H as <-.
    destruct (IH rest eq_refl) as [IH1 IH2]. split.
    + intros x' v' [Heq | Hin].
      * injection Heq as <- <-. exact Ex.
      * apply IH1. exact Hin.
    + intros x' [<- | Hin].
      * exists v. left. reflexivity.
      * destruct (IH2 x' Hin) as [v' Hv']. exists v'. right. exact Hv'.
Qed.

(** What a returned result contains, field by field. *)
Lemma growth_result_fields (args : Growth.GrowthRequest) (r : Growth.GrowthResult) :
  Growth.calculate_compound_interest args = Return r ->
  let mr := Growth.annual_rate args / 100 / 12 in
  let m := (Growth.years args * 12)%Z in
  let step := if (10 <? Growth.years args)%Z then 5%Z else 1%Z in
  Growth.value_after (Growth.principal args) mr (Growth.monthly_contribution args) m
  = Return (Growth.total_fv r)
  /\ Growth.total_invested r
     = Growth.principal args + Growth.monthly_contribution args * inject_Z m
  /\ Growth.total_gains r = Growth.total_fv r - Growth.total_invested r
  /\ ~ Growth.total_invested r == 0
  /\ Growth.roi_pct r = Growth.total_gains r / Growth.total_invested r * 100
  /\ map fst (Growth.breakdown r) = Py.range step (Growth.years args + 1) step
  /\ (forall y v, In (y, v) (Growth.breakdown r) ->
        Growth.value_after (Growth.principal args) mr
          (Growth.monthly_contribution args) (y * 12) = Return v)
  /\ (forall y, In y (Py.range step (Growth.years args + 1) step) ->
        exists v, In (y, v) (Growth.breakdown r)).
Proof.
  intros H mr m step. pose proof (breakdown_years args r H) as Hyears.
  revert H. unfold Growth.calculate_compound_interest.
  fold mr. fold m. fold step.
  destruct (Growth.value_after _ _ _ m) as [fv |]; [| discriminate]. cbn [Py.bind].
  unfold Py.truediv.
  destruct (Qeq_bool _ 0) eqn:Ez; [discriminate |]. cbn [Py.bind].
  destruct (Py.for_each _ _) as [rows |] eqn:E; [| discriminate]. cbn [Py.bind].
  intro H. injection H as <-.
  cbn [Growth.total_fv Growth.total_invested Growth.total_gains Growth.roi_pct
       Growth.breakdown] in *.
  apply for_each_rows in E. destruct E as [E1 E2].
  apply Qeq_bool_neq in Ez.
  repeat split; try reflexivity; try assumption.
Qed.

(** The year-by-year breakdown lists every year up to 10 years and every
    fifth year beyond; each row carries the value the headline formula
    gives for that many months.  The final year, with the headline future
    value, is a row when the period is 1 to 10 years or a multiple of 5;
    for a longer period that is not a multiple of 5 the final year is
    missing from the breakdown. *)
Theorem breakdown_stride (args : Growth.GrowthRequest) (r : Growth.GrowthResult) :
  Growth.calculate_compound_interest args = Return r ->
  map fst (Growth.breakdown r)
  = (if (10 <? Growth.years args)%Z
     then Py.range 5 (Growth.years args + 1) 5
     else Py.range 1 (Growth.years args + 1) 1)
  /\ (forall y v, In (y, v) (Growth.breakdown r) ->
        Growth.value_after (Growth.principal args)
          (Growth.annual_rate args / 100 / 12)
          (Growth.monthly_contribution args) (y * 12) = Return v)
  /\ ((1 <= Growth.years args <= 10)%Z
      \/ ((10 < Growth.years args)%Z /\ (Growth.years args mod 5 = 0)%Z) ->
      In (Growth.years args, Growth.total_fv r) (Growth.breakdown r))
  /\ ((10 < Growth.years args)%Z -> (Growth.years args mod 5 <> 0)%Z ->
      ~ In (Growth.years args) (map fst (Growth.breakdown r)))
  /\ ((Growth.years args <= 0)%Z -> Growth.breakdown r = []).
Proof.
  intro H.
  destruct (growth_result_fields args r H) as (Hfv & _ & _ & _ & _ & Hy & Hrow & Hin).
  cbv zeta in Hy, Hin.
  split; [rewrite Hy; destruct (10 <? Growth.years args)%Z; reflexivity |].
  split; [exact Hrow |].
  split; [| split].
  - intro Hcase.
    assert (Hmem : In (Growth.years args)
                      (Py.range (if (10 <? Growth.years args)%Z then 5%Z else 1%Z)
                         (Growth.years args + 1)
                         (if (10 <? Growth.years args)%Z then 5%Z else 1%Z))).
    { destruct Hcase as [Hs | [Hl Hm]].
      - assert (E : (10 <? Growth.years args)%Z = false) by (apply Z.ltb_ge; lia).
        rewrite E. apply range_spec; [lia |]. split; [lia |]. apply Z.mod_1_r.
      - assert (E : (10 <? Growth.years args)%Z = true) by (apply Z.ltb_lt; lia).
        rewrite E. apply range_spec; [lia |]. split; [lia |].
        pose proof (Z.div_mod (Growth.years args) 5 ltac:(lia)) as Hd.
        replace (Growth.years args - 5)%Z with ((Growth.years args / 5 - 1) * 5)%Z by lia.
        apply Z_mod_mult. }
    destruct (Hin _ Hmem) as [v Hv].
    pose proof (Hrow _ _ Hv) as Hval. rewrite Hfv in Hval.
    injection Hval as <-. exact Hv.
  - intros Hl Hm Hmem. rewrite Hy in Hmem.
    assert (E : (10 <? Growth.years args)%Z = true) by (apply Z.ltb_lt; lia).
    rewrite E in Hmem. apply range_spec in Hmem; [| lia].
    destruct Hmem as [_ Hmod]. apply Hm.
    apply Z.mod_divide in Hmod; [| lia]. destruct Hmod as [k Hk].
    replace (Growth.years args) with ((k + 1) * 5)%Z by lia.
    apply Z_mod_mult.
  - intro Hle.
    assert (Hnil : map fst (Growth.breakdown r) = []).
    { rewrite Hy.
      assert (E : (10 <? Growth.years args)%Z = false) by (apply Z.ltb_ge; lia).
      rewrite E. unfold Py.range.
      assert (E' : (1 <? Growth.years args + 1)%Z = false) by (apply Z.ltb_ge; lia).
      rewrite E'. reflexivity. }
    destruct (Growth.breakdown r); [reflexivity | discriminate].
Qed.

Lemma breakdown_stride_witness :
  exists r,
    Growth.calculate_compound_interest
      {| Growth.principal := 10000; Growth.annual_rate := 8; Growth.years := 12;
         Growth.monthly_contribution := 500 |} = Return r
    /\ map fst (Growth.breakdown r) = [5; 10]%Z.
Proof.
  destruct (growth_returns
              {| Growth.principal := 10000; Growth.annual_rate := 8;
                 Growth.years := 12; Growth.monthly_contribution := 500 |})
    as (r & Hr & _); try (cbn; intros; discriminate).
  exists r. split; [exact Hr |].
  destruct (breakdown_stride _ r Hr) as (Hy & _).
  rewrite Hy. reflexivity.
Defined.

(** With a positive principal, no monthly contribution, a rate that is not
    negative and at least one year, the calculator returns, the amount
    invested is the principal, the future value is at least the principal,
    and neither the gains nor the return on investment is negative. *)
Theorem growth_gains_nonnegative (p rate : Q) (y : Z) :
  0 < p -> 0 <= rate -> (1 <= y)%Z ->
  exists r,
    Growth.calculate_compound_interest
      {| Growth.principal := p; Growth.annual_rate := rate; Growth.years := y;
         Growth.monthly_contribution := 0 |} = Return r
    /\ Growth.total_invested r == p
    /\ p <= Growth.total_fv r
    /\ 0 <= Growth.total_gains r
    /\ 0 <= Growth.roi_pct r.
Proof.
  intros Hp Hrate Hy.
  pose proof (monthly_rate_scale rate) as Hmr.
  assert (Hx : 1 <= 1 + rate / 100 / 12) by (rewrite Hmr; lra).
  destruct (growth_returns
              {| Growth.principal := p; Growth.annual_rate := rate; Growth.years := y;
                 Growth.monthly_contribution := 0 |})
    as (r & Hr & Hfv & Hti); cbn.
  { lra. } { intro H. exfalso. lra. } { lra. }
  cbn in Hfv, Hti.
  destruct (growth_result_fields _ r Hr) as (_ & _ & Hg & _ & Hroi & _).
  exists r. split; [exact Hr |].
  assert (Hinv : Growth.total_invested r == p) by (rewrite Hti; ring).
  assert (Hle : p <= Growth.total_fv r).
  { rewrite Hfv. unfold Growth.closed_form.
    change (Py.lt 0 0) with false. cbv iota.
    pose proof (Qpower_1_le _ (y * 12) Hx ltac:(lia)). nra. }
  split; [exact Hinv |]. split; [exact Hle |].
  assert (Hgain : 0 <= Growth.total_gains r) by (rewrite Hg, Hinv; lra).
  split; [exact Hgain |].
  rewrite Hroi.
  assert (0 <= Growth.total_gains r / Growth.total_invested r)
    by (apply Qle_shift_div_l; [rewrite Hinv; exact Hp | lra]).
  lra.
Qed.

Lemma growth_gains_nonnegative_witness :
  exists r,
    Growth.calculate_compound_interest
      {| Growth.principal := 10000; Growth.annual_rate := 8; Growth.years := 20;
         Growth.monthly_contribution := 0 |} = Return r
    /\ 0 <= Growth.total_gains r.
Proof.
  destruct (growth_gains_nonnegative 10000 8 20) as (r & Hr & _ & _ & Hg & _).
  - reflexivity.
  - discriminate.
  - discriminate.
  - exists r. split; [exact Hr | exact Hg].
Defined.

(** A contribution that is zero or negative adds nothing to the future
    value, which is then the compounded principal alone, also at a rate of
    0; the amount invested still includes it. *)
Theorem growth_without_contribution (args : Growth.GrowthRequest) :
  Growth.monthly_contribution args <= 0 ->
  ~ 1 + Growth.annual_rate args / 100 / 12 == 0 ->
  ~ Growth.principal args
    + Growth.monthly_contribution args * inject_Z (Growth.years args * 12) == 0 ->
  exists r,
    Growth.calculate_compound_interest args = Return r
    /\ Growth.total_fv r
       == Growth.principal args
          * (1 + Growth.annual_rate args / 100 / 12) ^ (Growth.years args * 12)
    /\ Growth.total_invested r
       == Growth.principal args
          + Growth.monthly_contribution args * inject_Z (Growth.years args * 12).
Proof.
  intros Hc Hx Hinv.
  destruct (growth_returns args) as (r & Hr & Hfv & Hti); try assumption.
  { intro H. exfalso. lra. }
  exists r. split; [exact Hr |]. rewrite Hfv, Hti. split; [| reflexivity].
  unfold Growth.closed_form.
  assert (E : Py.lt 0 (Growth.monthly_contribution args) = false)
    by (apply lt_false_iff; exact Hc).
  rewrite E. ring.
Qed.

Lemma growth_without_contribution_witness :
  exists r,
    Growth.calculate_compound_interest
      {| Growth.principal := 1000; Growth.annual_rate := 0; Growth.years := 10;
         Growth.monthly_contribution := -5 |} = Return r
    /\ Growth.total_fv r == 1000
    /\ Growth.total_invested r == 400.
Proof.
  destruct (growth_without_contribution
              {| Growth.principal := 1000; Growth.annual_rate := 0;
                 Growth.years := 10; Growth.monthly_contribution := -5 |})
    as (r & Hr & Hfv & Hti); try (cbn; intros; discriminate).
  exists r. split; [exact Hr |]. split.
  - rewrite Hfv. vm_compute. reflexivity.
  - rewrite Hti. vm_compute. reflexivity.
Defined.

Lemma value_after_zero_months (p r c : Q) :
  (0 < c -> ~ r == 0) ->
  exists v, Growth.value_after p r c 0 = Return v /\ v == p.
Proof.
  intro Hr. unfold Growth.value_after.
  rewrite pow_nonneg_exponent by lia. cbn [Py.bind].
  destruct (Py.lt 0 c) eqn:E.
  - apply lt_true_iff in E. cbn [Py.bind].
    rewrite (truediv_nonzero _ r (Hr E)). cbn [Py.bind].
    eexists. split; [reflexivity |]. cbn. field. exact (Hr E).
  - cbn [Py.bind]. eexists. split; [reflexivity |]. cbn. ring.
Qed.

(** A period of 0 years is not rejected.  With a principal other than 0,
    and a monthly rate other than 0 when there is a contribution, the
    calculator returns the principal as future value, no gains, a return
    on investment of 0 and an empty breakdown.  With a principal of 0 it
    always raises [ZeroDivisionError], whatever the contribution and the
    rate. *)
Theorem growth_zero_years (p rate c : Q) :
  (~ p == 0 -> (0 < c -> ~ rate / 100 / 12 == 0) ->
   exists r,
     Growth.calculate_compound_interest
       {| Growth.principal := p; Growth.annual_rate := rate; Growth.years := 0;
          Growth.monthly_contribution := c |} = Return r
     /\ Growth.total_fv r == p /\ Growth.total_gains r == 0
     /\ Growth.roi_pct r == 0 /\ Growth.breakdown r = [])
  /\ (p == 0 ->
      Growth.calculate_compound_interest
        {| Growth.principal := p; Growth.annual_rate := rate; Growth.years := 0;
           Growth.monthly_contribution := c |} = Raise ZeroDivisionError).
Proof.
  split.
  - intros Hp Hr0.
    destruct (value_after_zero_months p (rate / 100 / 12) c Hr0) as (v & Hv & Hvp).
    unfold Growth.calculate_compound_interest.
    cbn [Growth.principal Growth.annual_rate Growth.years Growth.monthly_contribution].
    change (0 * 12)%Z with 0%Z. rewrite Hv. cbn [Py.bind].
    assert (Hinv : ~ p + c * inject_Z 0 == 0).
    { intro H. apply Hp. rewrite <- H. change (inject_Z 0) with 0. ring. }
    rewrite (truediv_nonzero _ _ Hinv). cbn [Py.bind].
    eexists. split; [reflexivity |].
    cbn [Growth.total_fv Growth.total_gains Growth.roi_pct Growth.breakdown].
    split; [exact Hvp |].
    assert (Hg : v - (p + c * inject_Z 0) == 0).
    { rewrite Hvp. change (inject_Z 0) with 0. ring. }
    split; [exact Hg |]. split; [| reflexivity].
    rewrite Hg. field. exact Hp.
  - intro Hp.
    unfold Growth.calculate_compound_interest.
    cbn [Growth.principal Growth.annual_rate Growth.years Growth.monthly_contribution].
    change (0 * 12)%Z with 0%Z.
    unfold Growth.value_after at 1.
    rewrite pow_nonneg_exponent by lia. cbn [Py.bind].
    assert (Hinv : p + c * inject_Z 0 == 0).
    { rewrite Hp. change (inject_Z 0) with 0. ring. }
    destruct (Py.lt 0 c); cbn [Py.bind].
    + destruct (Py.truediv _ (rate / 100 / 12)); cbn [Py.bind].
      * rewrite (truediv_zero _ _ Hinv). reflexivity.
      * destruct e. reflexivity.
    + rewrite (truediv_zero _ _ Hinv). reflexivity.
Qed.

Lemma growth_zero_years_witness :
  (exists r,
      Growth.calculate_compound_interest
        {| Growth.principal := 2500; Growth.annual_rate := 7; Growth.years := 0;
           Growth.monthly_contribution := 100 |} = Return r
      /\ Growth.total_fv r == 2500 /\ Growth.breakdown r = [])
  /\ Growth.calculate_compound_interest
       {| Growth.principal := 0; Growth.annual_rate := 7; Growth.years := 0;
          Growth.monthly_contribution := 100 |} = Raise ZeroDivisionError.
Proof.
  split.
  - destruct (proj1 (growth_zero_years 2500 7 100)) as (r & Hr & Hfv & _ & _ & Hb);
      try (intros; discriminate).
    exists r. split; [exact Hr |]. split; [exact Hfv | exact Hb].
  - apply (proj2 (growth_zero_years 0 7 100)). reflexivity.
Defined.

(** ** Stock metrics *)

Lemma lt_trans_bool (a b c : Q) :
  b <= c -> Py.lt a b = true -> Py.lt a c = true.
Proof. intros H E. apply lt_true_iff in E. apply lt_true_iff. lra. Qed.

Lemma lt_trans_bool_l (a b c : Q) :
  a <= b -> Py.lt b c = true -> Py.lt a c = true.
Proof. intros H E. apply lt_true_iff in E. apply lt_true_iff. lra. Qed.

Lemma stock_result (args : Stock.StockEvaluationRequest) :
  exists r,
    Stock.evaluate_stock_metrics args = Return r
    /\ length (Stock.signals r) = 4%nat
    /\ Stock.positive_signals r
       = (Nat.b2n (Py.lt (Stock.pe_ratio args) 15)
          + Nat.b2n (Py.lt 3 (Stock.dividend_yield args))
          + Nat.b2n (Py.lt 10 (Stock.revenue_growth args))
          + Nat.b2n (Py.lt (Stock.debt_to_equity args) (1 # 2)))%nat
    /\ Stock.warning_signals r
       = (Nat.b2n (negb (Py.lt (Stock.pe_ratio args) 25))
          + Nat.b2n (negb (Py.lt 0 (Stock.revenue_growth args)))
          + Nat.b2n (negb (Py.lt (Stock.debt_to_equity args) (3 # 2))))%nat
    /\ Stock.overall r
       = (if (3 <=? Stock.positive_signals r)%nat then
            "POSITIVE - Multiple favorable indicators"
          else if (2 <=? Stock.warning_signals r)%nat then
            "CAUTIOUS - Multiple concerns identified"
          else "NEUTRAL - Mixed signals, requires deeper analysis")%string.
Proof.
  eexists. split; [reflexivity |].
  cbn [Stock.signals Stock.positive_signals Stock.warning_signals Stock.overall].
  pose proof (lt_trans_bool (Stock.pe_ratio args) 15 25 ltac:(discriminate)) as H1.
  pose proof (lt_trans_bool_l 10 20 (Stock.revenue_growth args) ltac:(discriminate)) as H2.
  pose proof (lt_trans_bool_l 0 10 (Stock.revenue_growth args) ltac:(discriminate)) as H3.
  pose proof (lt_trans_bool (Stock.debt_to_equity args) (1 # 2) (3 # 2)
                ltac:(discriminate)) as H4.
  destruct (Py.lt (Stock.pe_ratio args) 15);
    destruct (Py.lt (Stock.pe_ratio args) 25);
    try (specialize (H1 eq_refl); discriminate); clear H1;
    destruct (Py.lt 20 (Stock.revenue_growth args));
    destruct (Py.lt 10 (Stock.revenue_growth args));
    try (specialize (H2 eq_refl); discriminate); clear H2;
    destruct (Py.lt 0 (Stock.revenue_growth args));
    try (specialize (H3 eq_refl); discriminate); clear H3;
    destruct (Py.lt (Stock.debt_to_equity args) (1 # 2));
    destruct (Py.lt (Stock.debt_to_equity args) (3 # 2));
    try (specialize (H4 eq_refl); discriminate); clear H4;
    destruct (Py.lt 3 (Stock.dividend_yield args));
    destruct (Py.lt 1 (Stock.dividend_yield args));
    repeat split.
Qed.

(** The classifier always returns exactly four signals.  A metric counts
    as favorable when P/E is below 15, the dividend yield above 3, revenue
    growth above 10, debt-to-equity below 0.5; as a warning when P/E is at
    least 25, revenue growth at most 0, debt-to-equity at least 1.5.  The
    two counts never exceed four together, so three favorable signals leave
    room for at most one warning: the POSITIVE and the CAUTIOUS conditions
    never hold at once, and the assessment is CAUTIOUS exactly when there
    are two or more warnings. *)
Theorem stock_signal_counts (args : Stock.StockEvaluationRequest) :
  exists r,
    Stock.evaluate_stock_metrics args = Return r
    /\ length (Stock.signals r) = 4%nat
    /\ Stock.positive_signals r
       = (Nat.b2n (Py.lt (Stock.pe_ratio args) 15)
          + Nat.b2n (Py.lt 3 (Stock.dividend_yield args))
          + Nat.b2n (Py.lt 10 (Stock.revenue_growth args))
          + Nat.b2n (Py.lt (Stock.debt_to_equity args) (1 # 2)))%nat
    /\ Stock.warning_signals r
       = (Nat.b2n (negb (Py.lt (Stock.pe_ratio args) 25))
          + Nat.b2n (negb (Py.lt 0 (Stock.revenue_growth args)))
          + Nat.b2n (negb (Py.lt (Stock.debt_to_equity args) (3 # 2))))%nat
    /\ (Stock.positive_signals r + Stock.warning_signals r <= 4)%nat
    /\ (Stock.overall r = "POSITIVE - Multiple favorable indicators"%string
        <-> (3 <= Stock.positive_signals r)%nat)
    /\ (Stock.overall r = "CAUTIOUS - Multiple concerns identified"%string
        <-> (2 <= Stock.warning_signals r)%nat)
    /\ (Stock.overall r = "NEUTRAL - Mixed signals, requires deeper analysis"%string
        <-> (Stock.positive_signals r <= 2 /\ Stock.warning_signals r <= 1)%nat).
Proof.
  destruct (stock_result args) as (r & Hr & Hlen & Hpos & Hwarn & Hov).
  exists r. split; [exact Hr |]. split; [exact Hlen |].
  split; [exact Hpos |]. split; [exact Hwarn |].
  assert (Hsum : (Stock.positive_signals r + Stock.warning_signals r <= 4)%nat).
  { rewrite Hpos, Hwarn.
    pose proof (lt_trans_bool (Stock.pe_ratio args) 15 25 ltac:(discriminate)) as H1.
    pose proof (lt_trans_bool_l 0 10 (Stock.revenue_growth args) ltac:(discriminate)) as H3.
    pose proof (lt_trans_bool (Stock.debt_to_equity args) (1 # 2) (3 # 2)
                  ltac:(discriminate)) as H4.
    destruct (Py.lt (Stock.pe_ratio args) 15);
      destruct (Py.lt (Stock.pe_ratio args) 25);
      try (specialize (H1 eq_refl); discriminate);
      destruct (Py.lt 10 (Stock.revenue_growth args));
      destruct (Py.lt 0 (Stock.revenue_growth args));
      try (specialize (H3 eq_refl); discriminate);
      destruct (Py.lt (Stock.debt_to_equity args) (1 # 2));
      destruct (Py.lt (Stock.debt_to_equity args) (3 # 2));
      try (specialize (H4 eq_refl); discriminate);
      destruct (Py.lt 3 (Stock.dividend_yield args)); cbn; lia. }
  split; [exact Hsum |].
  rewrite Hov.
  destruct (3 <=? Stock.positive_signals r)%nat eqn:E3;
    [apply Nat.leb_le in E3 | apply Nat.leb_gt in E3];
    (destruct (2 <=? Stock.warning_signals r)%nat eqn:E2;
      [apply Nat.leb_le in E2 | apply Nat.leb_gt in E2]);
    repeat split; intros; try discriminate; try lia; try reflexivity.
Qed.

(** Better figures never give a worse assessment.  When every metric of a
    second stock is at least as good as the first's (P/E and debt no
    higher, dividend yield and revenue growth no lower), the second has no
    fewer favorable signals and no more warnings; if the first is assessed
    POSITIVE so is the second, and if the second is assessed CAUTIOUS so is
    the first. *)
Theorem stock_verdict_monotone (a1 a2 : Stock.StockEvaluationRequest) :
  Stock.pe_ratio a2 <= Stock.pe_ratio a1 ->
  Stock.dividend_yield a1 <= Stock.dividend_yield a2 ->
  Stock.revenue_growth a1 <= Stock.revenue_growth a2 ->
  Stock.debt_to_equity a2 <= Stock.debt_to_equity a1 ->
  exists r1 r2,
    Stock.evaluate_stock_metrics a1 = Return r1
    /\ Stock.evaluate_stock_metrics a2 = Return r2
    /\ (Stock.positive_signals r1 <= Stock.positive_signals r2)%nat
    /\ (Stock.warning_signals r2 <= Stock.warning_signals r1)%nat
    /\ (Stock.overall r1 = "POSITIVE - Multiple favorable indicators"%string ->
        Stock.overall r2 = "POSITIVE - Multiple favorable indicators"%string)
    /\ (Stock.overall r2 = "CAUTIOUS - Multiple concerns identified"%string ->
        Stock.overall r1 = "CAUTIOUS - Multiple concerns identified"%string).
Proof.
  intros Hpe Hdiv Hg Hd.
  destruct (stock_result a1) as (r1 & Hr1 & _ & Hp1 & Hw1 & Ho1).
  destruct (stock_result a2) as (r2 & Hr2 & _ & Hp2 & Hw2 & Ho2).
  exists r1, r2. split; [exact Hr1 |]. split; [exact Hr2 |].
  assert (Hb : forall b1 b2 : bool, (b1 = true -> b2 = true) ->
                                    (Nat.b2n b1 <= Nat.b2n b2)%nat).
  { intros [] [] H; cbn; first [lia | specialize (H eq_refl); discriminate]. }
  assert (Hn : forall b1 b2 : bool, (b1 = true -> b2 = true) ->
                                    (Nat.b2n (negb b2) <= Nat.b2n (negb b1))%nat).
  { intros [] [] H; cbn; first [lia | specialize (H eq_refl); discriminate]. }
  assert (Hpos : (Stock.positive_signals r1 <= Stock.positive_signals r2)%nat).
  { rewrite Hp1, Hp2.
    pose proof (Hb _ _ (lt_trans_bool_l (Stock.pe_ratio a2) (Stock.pe_ratio a1) 15 Hpe)).
    pose proof (Hb _ _ (lt_trans_bool 3 _ _ Hdiv)).
    pose proof (Hb _ _ (lt_trans_bool 10 _ _ Hg)).
    pose proof (Hb _ _ (lt_trans_bool_l (Stock.debt_to_equity a2)
                          (Stock.debt_to_equity a1) (1 # 2) Hd)).
    lia. }
  assert (Hwarn : (Stock.warning_signals r2 <= Stock.warning_signals r1)%nat).
  { rewrite Hw1, Hw2.
    pose proof (Hn _ _ (lt_trans_bool_l (Stock.pe_ratio a2) (Stock.pe_ratio a1) 25 Hpe)).
    pose proof (Hn _ _ (lt_trans_bool 0 _ _ Hg)).
    pose proof (Hn _ _ (lt_trans_bool_l (Stock.debt_to_equity a2)
                          (Stock.debt_to_equity a1) (3 # 2) Hd)).
    lia. }
  split; [exact Hpos |]. split; [exact Hwarn |].
  rewrite Ho1, Ho2.
  destruct (3 <=? Stock.positive_signals r1)%nat eqn:E1;
    [apply Nat.leb_le in E1 | apply Nat.leb_gt in E1];
    (destruct (3 <=? Stock.positive_signals r2)%nat eqn:E2;
      [apply Nat.leb_le in E2 | apply Nat.leb_gt in E2]);
    (destruct (2 <=? Stock.warning_signals r1)%nat eqn:E3;
      [apply Nat.leb_le in E3 | apply Nat.leb_gt in E3]);
    (destruct (2 <=? Stock.warning_signals r2)%nat eqn:E4;
      [apply Nat.leb_le in E4 | apply Nat.leb_gt in E4]);
    split; intros; try discriminate; try reflexivity; try lia.
Qed.

Lemma stock_verdict_monotone_witness :
  exists r1 r2,
    Stock.evaluate_stock_metrics
      {| Stock.stock_name := "TechCorp"; Stock.current_price := 125;
         Stock.pe_ratio := 22; Stock.dividend_yield := 5 # 2;
         Stock.revenue_growth := 18; Stock.debt_to_equity := 8 # 10 |} = Return r1
    /\ Stock.evaluate_stock_metrics
         {| Stock.stock_name := "TechCorp"; Stock.current_price := 125;
            Stock.pe_ratio := 149 # 10; Stock.dividend_yield := 31 # 10;
            Stock.revenue_growth := 21; Stock.debt_to_equity := 4 # 10 |} = Return r2
    /\ (Stock.positive_signals r1 <= Stock.positive_signals r2)%nat.
Proof.
  destruct (stock_verdict_monotone
              {| Stock.stock_name := "TechCorp"; Stock.current_price := 125;
                 Stock.pe_ratio := 22; Stock.dividend_yield := 5 # 2;
                 Stock.revenue_growth := 18; Stock.debt_to_equity := 8 # 10 |}
              {| Stock.stock_name := "TechCorp"; Stock.current_price := 125;
                 Stock.pe_ratio := 149 # 10; Stock.dividend_yield := 31 # 10;
                 Stock.revenue_growth := 21; Stock.debt_to_equity := 4 # 10 |})
    as (r1 & r2 & H1 & H2 & Hp & _); try (cbn; discriminate).
  exists r1, r2. split; [exact H1 |]. split; [exact H2 | exact Hp].
Defined.

(** ** Retirement *)

Lemma retirement_returns (args : Retirement.RetirementRequest) :
  let R := Retirement.expected_return args / 100 in
  let y := (Retirement.retirement_age args - Retirement.current_age args)%Z in
  let fv := Retirement.current_savings args * (1 + R) ^ y in
  let add := Retirement.desired_annual_income args * 25 - fv in
  ((y < 0)%Z -> ~ 1 + R == 0) ->
  (0 < add -> ((y < 0)%Z -> ~ 1 + R / 12 == 0)
              /\ ~ (1 + R / 12) ^ (y * 12) - 1 == 0) ->
  exists r,
    Retirement.calculate_retirement_needs args = Return r
    /\ Retirement.years_to_retirement r = y
    /\ Retirement.retirement_years r = (90 - Retirement.retirement_age args)%Z
    /\ Retirement.retirement_corpus r = Retirement.desired_annual_income args * 25
    /\ Retirement.fv_current r = fv
    /\ Retirement.additional_needed r = add
    /\ Retirement.additional_savings_needed r = Py.max0 add
    /\ Retirement.monthly_contribution r
       = (if Py.lt 0 add then add * (R / 12) / ((1 + R / 12) ^ (y * 12) - 1) else 0).
Proof.
  intros R y fv add Hbase Hshort.
  assert (Hpow : forall b e, ((e < 0)%Z -> ~ b == 0) -> Py.pow b e = Return (b ^ e)).
  { intros b e H. destruct (Z_lt_le_dec e 0) as [Hneg | Hpos].
    - apply pow_nonzero_base. exact (H Hneg).
    - apply pow_nonneg_exponent. exact Hpos. }
  unfold Retirement.calculate_retirement_needs, Retirement.projected_savings.
  fold R. fold y. rewrite (Hpow _ _ Hbase). cbn [Py.bind]. fold fv. fold add.
  destruct (Py.lt 0 add) eqn:E.
  - apply lt_true_iff in E. destruct (Hshort E) as [Hb Hd].
    rewrite Hpow by (intro Hneg; apply Hb; lia).
    cbn [Py.bind]. rewrite (truediv_nonzero _ _ Hd). cbn [Py.bind].
    eexists. split; [reflexivity |]. repeat split.
  - cbn [Py.bind]. eexists. split; [reflexivity |]. repeat split.
Qed.

(** What a returned plan contains. *)
Lemma retirement_result_fields (args : Retirement.RetirementRequest)
  (r : Retirement.RetirementResult) :
  Retirement.calculate_retirement_needs args = Return r ->
  let R := Retirement.expected_return args / 100 in
  let y := (Retirement.retirement_age args - Retirement.current_age args)%Z in
  exists pw,
    Py.pow (1 + R) y = Return pw
    /\ Retirement.fv_current r = Retirement.current_savings args * pw
    /\ Retirement.retirement_corpus r = Retirement.desired_annual_income args * 25
    /\ Retirement.additional_needed r
       = Retirement.desired_annual_income args * 25
         - Retirement.current_savings args * pw
    /\ Retirement.additional_savings_needed r
       = Py.max0 (Retirement.additional_needed r)
    /\ ((Py.lt 0 (Retirement.additional_needed r) = false
         /\ Retirement.monthly_contribution r = 0)
        \/ (Py.lt 0 (Retirement.additional_needed r) = true
            /\ exists pm,
                 Py.pow (1 + R / 12) (y * 12) = Return pm
                 /\ ~ pm - 1 == 0
                 /\ Retirement.monthly_contribution r
                    = Retirement.additional_needed r * (R / 12) / (pm - 1))).
Proof.
  intros H R y. revert H.
  unfold Retirement.calculate_retirement_needs, Retirement.projected_savings.
  fold R. fold y.
  destruct (Py.pow (1 + R) y) as [pw |]; [| discriminate]. cbn [Py.bind].
  destruct (Py.lt 0 _) eqn:E.
  - destruct (Py.pow (1 + R / 12) (y * 12)) as [pm |]; [| discriminate].
    cbn [Py.bind]. unfold Py.truediv.
    destruct (Qeq_bool (pm - 1) 0) eqn:Ez; [discriminate |]. cbn [Py.bind].
    intro H. injection H as <-.
    cbn [Retirement.fv_current Retirement.retirement_corpus
         Retirement.additional_needed Retirement.additional_savings_needed
         Retirement.monthly_contribution].
    exists pw. repeat (split; [reflexivity |]). right.
    split; [exact E |]. exists pm. split; [reflexivity |].
    split; [apply Qeq_bool_neq; exact Ez | reflexivity].
  - cbn [Py.bind]. intro H. injection H as <-.
    cbn [Retirement.fv_current Retirement.retirement_corpus
         Retirement.additional_needed Retirement.additional_savings_needed
         Retirement.monthly_contribution].
    exists pw. repeat (split; [reflexivity |]). left. split; [exact E | reflexivity].
Qed.

Lemma pow_value (b : Q) (e : Z) (v : Q) :
  (0 <= e)%Z -> Py.pow b e = Return v -> v = b ^ e.
Proof.
  intros He H. rewrite pow_nonneg_exponent in H by exact He.
  injection H as <-. reflexivity.
Qed.

Lemma retirement_monthly_nonnegative (args : Retirement.RetirementRequest)
  (r : Retirement.RetirementResult) :
  0 <= Retirement.expected_return args ->
  (Retirement.current_age args < Retirement.retirement_age args)%Z ->
  Retirement.calculate_retirement_needs args = Return r ->
  0 <= Retirement.monthly_contribution r.
Proof.
  intros Hret Hage H.
  destruct (retirement_result_fields args r H) as (pw & _ & _ & _ & _ & _ & Hm).
  destruct Hm as [[_ ->] | (E & pm & Hpm & Hnz & ->)]; [lra |].
  apply lt_true_iff in E.
  apply pow_value in Hpm; [| lia]. subst pm.
  assert (Hmr : 0 <= Retirement.expected_return args / 100 / 12)
    by (rewrite monthly_rate_scale; lra).
  pose proof (Qpower_1_le (1 + Retirement.expected_return args / 100 / 12)
                ((Retirement.retirement_age args - Retirement.current_age args) * 12)
                ltac:(lra) ltac:(lia)) as Hge.
  apply Qle_shift_div_l; [lra | nra].
Qed.

(** Whenever the solver returns for an expected return that is not negative
    and a retirement age above the current age, neither the additional
    savings it reports nor the monthly saving is negative. *)
Theorem retirement_saving_nonnegative (args : Retirement.RetirementRequest)
  (r : Retirement.RetirementResult) :
  0 <= Retirement.expected_return args ->
  (Retirement.current_age args < Retirement.retirement_age args)%Z ->
  Retirement.calculate_retirement_needs args = Return r ->
  0 <= Retirement.additional_savings_needed r
  /\ 0 <= Retirement.monthly_contribution r.
Proof.
  intros Hret Hage H.
  split; [| exact (retirement_monthly_nonnegative args r Hret Hage H)].
  destruct (retirement_result_fields args r H) as (pw & _ & _ & _ & _ & Hs & _).
  rewrite Hs. unfold Py.max0.
  destruct (Py.lt 0 (Retirement.additional_needed r)) eqn:E.
  - apply lt_true_iff in E. lra.
  - lra.
Qed.

Lemma retirement_saving_nonnegative_witness :
  exists r,
    Retirement.calculate_retirement_needs
      {| Retirement.current_age := 30; Retirement.retirement_age := 65;
         Retirement.current_savings := 50000;
         Retirement.desired_annual_income := 60000;
         Retirement.expected_return := 7 |} = Return r
    /\ 0 <= Retirement.monthly_contribution r.
Proof.
  destruct (retirement_returns
              {| Retirement.current_age := 30; Retirement.retirement_age := 65;
                 Retirement.current_savings := 50000;
                 Retirement.desired_annual_income := 60000;
                 Retirement.expected_return := 7 |})
    as (r & Hr & _).
  - intro H. discriminate H.
  - intros _. split; [intro H; discriminate H | vm_compute; discriminate].
  - exists r. split; [exact Hr |].
    exact (proj2 (retirement_saving_nonnegative
                    {| Retirement.current_age := 30; Retirement.retirement_age := 65;
                       Retirement.current_savings := 50000;
                       Retirement.desired_annual_income := 60000;
                       Retirement.expected_return := 7 |}
                    r ltac:(discriminate) ltac:(reflexivity) Hr)).
Defined.

(** When the retirement age equals the current age and the savings are
    below the corpus, the payment formula divides by
    [(1 + monthly_rate) ** 0 - 1]: the solver raises [ZeroDivisionError]
    whatever the expected return. *)
Theorem retirement_no_horizon_raises (args : Retirement.RetirementRequest) :
  Retirement.retirement_age args = Retirement.current_age args ->
  Retirement.current_savings args < Retirement.desired_annual_income args * 25 ->
  Retirement.calculate_retirement_needs args = Raise ZeroDivisionError.
Proof.
  intros Hage Hgap.
  unfold Retirement.calculate_retirement_needs, Retirement.projected_savings.
  rewrite Hage, Z.sub_diag. change (0 * 12)%Z with 0%Z.
  rewrite pow_nonneg_exponent by lia. cbn [Py.bind].
  assert (E : Py.lt 0 (Retirement.desired_annual_income args * 25
                       - Retirement.current_savings args
                         * (1 + Retirement.expected_return args / 100) ^ 0) = true).
  { apply lt_true_iff. cbn [Qpower]. lra. }
  rewrite E. rewrite pow_nonneg_exponent by lia. cbn [Py.bind].
  rewrite truediv_zero; [reflexivity |]. cbn [Qpower]. ring.
Qed.

Lemma retirement_no_horizon_raises_witness :
  Retirement.calculate_retirement_needs
    {| Retirement.current_age := 65; Retirement.retirement_age := 65;
       Retirement.current_savings := 100000;
       Retirement.desired_annual_income := 40000;
       Retirement.expected_return := 5 |} = Raise ZeroDivisionError.
Proof.
  apply (retirement_no_horizon_raises
           {| Retirement.current_age := 65; Retirement.retirement_age := 65;
              Retirement.current_savings := 100000;
              Retirement.desired_annual_income := 40000;
              Retirement.expected_return := 5 |}); reflexivity.
Defined.



(** ** Comparison *)

Lemma risk_score_positive (key : string) :
  0 < Py.dict_get Comparison.risk_scores key 2.
Proof.
  unfold Comparison.risk_scores. cbn [Py.dict_get].
  destruct (String.eqb "low" key); [reflexivity |].
  destruct (String.eqb "medium" key); [reflexivity |].
  destruct (String.eqb "high" key); reflexivity.
Qed.

Lemma compare_fields (args : Comparison.ComparisonRequest) :
  let pa := (1 + Comparison.option_a_return args / 100) ^ Comparison.time_horizon args in
  let pb := (1 + Comparison.option_b_return args / 100) ^ Comparison.time_horizon args in
  let sa := (Comparison.option_a_return args - 2)
            / Py.dict_get Comparison.risk_scores
                (Py.lower (Comparison.option_a_risk args)) 2 in
  let sb := (Comparison.option_b_return args - 2)
            / Py.dict_get Comparison.risk_scores
                (Py.lower (Comparison.option_b_risk args)) 2 in
  ((Comparison.time_horizon args < 0)%Z ->
   ~ 1 + Comparison.option_a_return args / 100 == 0
   /\ ~ 1 + Comparison.option_b_return args / 100 == 0) ->
  exists r,
    Comparison.compare_investment_options args = Return r
    /\ Comparison.fv_a r = Comparison.investment_amount args * pa
    /\ Comparison.fv_b r = Comparison.investment_amount args * pb
    /\ Comparison.gain_a r = Comparison.fv_a r - Comparison.investment_amount args
    /\ Comparison.gain_b r = Comparison.fv_b r - Comparison.investment_amount args
    /\ Comparison.risk_adj_return_a r = sa
    /\ Comparison.risk_adj_return_b r = sb
    /\ Comparison.comparison r
       = (if Py.lt (Comparison.fv_b r) (Comparison.fv_a r) then
            Comparison.option_a_name args ++ " will be $"
              ++ Py.format_money (Comparison.fv_a r - Comparison.fv_b r)
              ++ " higher than " ++ Comparison.option_b_name args
              ++ Comparison.newline
          else
            Comparison.option_b_name args ++ " will be $"
              ++ Py.format_money (Comparison.fv_b r - Comparison.fv_a r)
              ++ " higher than " ++ Comparison.option_a_name args
              ++ Comparison.newline)%string
    /\ Comparison.recommendation r
       = (if Py.lt (sb * (6 # 5)) sa then
            Comparison.recommends (Comparison.option_a_name args)
          else if Py.lt (sa * (6 # 5)) sb then
            Comparison.recommends (Comparison.option_b_name args)
          else Comparison.comparable_text).
Proof.
  intros pa pb sa sb Hbase.
  assert (Hpow : forall b, ((Comparison.time_horizon args < 0)%Z -> ~ b == 0) ->
                           Py.pow b (Comparison.time_horizon args)
                           = Return (b ^ Comparison.time_horizon args)).
  { intros b H. destruct (Z_lt_le_dec (Comparison.time_horizon args) 0) as [Hn | Hp].
    - apply pow_nonzero_base. exact (H Hn).
    - apply pow_nonneg_exponent. exact Hp. }
  unfold Comparison.compare_investment_options.
  rewrite !Hpow by (intro H; apply (Hbase H)).
  cbn [Py.bind].
  rewrite !truediv_nonzero by apply risk_score_nonzero.
  cbn [Py.bind]. eexists. split; [reflexivity |].
  repeat split.
Qed.

Lemma risk_score_default (s : string) :
  Py.lower s <> "low"%string -> Py.lower s <> "medium"%string ->
  Py.lower s <> "high"%string ->
  Py.dict_get Comparison.risk_scores (Py.lower s) 2 = 2.
Proof.
  intros Hl Hm Hh. unfold Comparison.risk_scores. cbn [Py.dict_get].
  destruct (String.eqb_spec "low" (Py.lower s)) as [E | _]; [congruence |].
  destruct (String.eqb_spec "medium" (Py.lower s)) as [E | _]; [congruence |].
  destruct (String.eqb_spec "high" (Py.lower s)) as [E | _]; [congruence |].
  reflexivity.
Qed.

(** The risk levels are scored without regard to case, and a risk string
    that is none of low, medium and high is scored exactly like medium:
    the future values, the gains, the risk-adjusted scores, the comparison
    line and the recommendation are the same.  (The report also echoes
    each risk string in upper case on its "Risk Level" line, which is not
    part of the result record and follows the string as given.) *)
Theorem comparison_risk_lenient
  (na nb sa sb : string) (ra rb amt : Q) (y : Z) :
  let run sa' sb' :=
    Comparison.compare_investment_options
      {| Comparison.option_a_name := na; Comparison.option_a_return := ra;
         Comparison.option_a_risk := sa';
         Comparison.option_b_name := nb; Comparison.option_b_return := rb;
         Comparison.option_b_risk := sb';
         Comparison.investment_amount := amt; Comparison.time_horizon := y |} in
  let unknown s := Py.lower s <> "low"%string /\ Py.lower s <> "medium"%string
                   /\ Py.lower s <> "high"%string in
  run sa sb = run (Py.lower sa) (Py.lower sb)
  /\ (unknown sa -> run sa sb = run "medium"%string sb)
  /\ (unknown sb -> run sa sb = run sa "medium"%string).
Proof.
  cbv zeta. unfold Comparison.compare_investment_options.
  cbn [Comparison.option_a_name Comparison.option_a_return Comparison.option_a_risk
       Comparison.option_b_name Comparison.option_b_return Comparison.option_b_risk
       Comparison.investment_amount Comparison.time_horizon].
  split; [rewrite !lower_idempotent; reflexivity |].
  split; intros (Hl & Hm & Hh); rewrite (risk_score_default _ Hl Hm Hh); reflexivity.
Qed.

Lemma comparison_risk_lenient_witness :
  Comparison.compare_investment_options
    {| Comparison.option_a_name := "Stocks"; Comparison.option_a_return := 9;
       Comparison.option_a_risk := "speculative";
       Comparison.option_b_name := "Bonds"; Comparison.option_b_return := 4;
       Comparison.option_b_risk := "low";
       Comparison.investment_amount := 5000; Comparison.time_horizon := 10 |}
  = Comparison.compare_investment_options
      {| Comparison.option_a_name := "Stocks"; Comparison.option_a_return := 9;
         Comparison.option_a_risk := "medium";
         Comparison.option_b_name := "Bonds"; Comparison.option_b_return := 4;
         Comparison.option_b_risk := "low";
         Comparison.investment_amount := 5000; Comparison.time_horizon := 10 |}.
Proof.
  apply (proj1 (proj2 (comparison_risk_lenient "Stocks" "Bonds" "speculative" "low"
                         9 4 5000 10))).
  repeat split; discriminate.
Defined.

(** With an amount and a horizon that are not negative, the option with
    the lower expected return (both above -100) is never ahead: its future
    value and its gain are no higher, and the comparison line either names
    the other option as higher or, when the two future values are equal,
    reports a difference of $0.00. *)
Theorem lower_return_never_ahead (args : Comparison.ComparisonRequest) :
  0 <= Comparison.investment_amount args ->
  (0 <= Comparison.time_horizon args)%Z ->
  -100 < Comparison.option_b_return args ->
  Comparison.option_b_return args <= Comparison.option_a_return args ->
  exists r,
    Comparison.compare_investment_options args = Return r
    /\ Comparison.fv_b r <= Comparison.fv_a r
    /\ Comparison.gain_b r <= Comparison.gain_a r
    /\ (Comparison.comparison r
        = (Comparison.option_a_name args ++ " will be $"
             ++ Py.format_money (Comparison.fv_a r - Comparison.fv_b r)
             ++ " higher than " ++ Comparison.option_b_name args
             ++ Comparison.newline)%string
        \/ (Comparison.fv_a r == Comparison.fv_b r
            /\ Comparison.comparison r
               = (Comparison.option_b_name args ++ " will be $0.00 higher than "
                    ++ Comparison.option_a_name args ++ Comparison.newline)%string)).
Proof.
  intros Hamt Hy Hlo Hab.
  destruct (compare_fields args) as (r & Hr & Fa & Fb & Ga & Gb & _ & _ & Hc & _).
  { intro H. lia. }
  exists r. split; [exact Hr |].
  assert (Hfv : Comparison.fv_b r <= Comparison.fv_a r).
  { rewrite Fa, Fb.
    rewrite <- (Z2Nat.id (Comparison.time_horizon args)) by lia.
    assert (Hb0 : 0 <= 1 + Comparison.option_b_return args / 100).
    { setoid_replace (Comparison.option_b_return args / 100)
        with (Comparison.option_b_return args * (1 # 100)) by field. lra. }
    assert (Hle : 1 + Comparison.option_b_return args / 100
                  <= 1 + Comparison.option_a_return args / 100).
    { setoid_replace (Comparison.option_b_return args / 100)
        with (Comparison.option_b_return args * (1 # 100)) by field.
      setoid_replace (Comparison.option_a_return args / 100)
        with (Comparison.option_a_return args * (1 # 100)) by field. lra. }
    pose proof (Qpower_nat_mono_base _ _
                  (Z.to_nat (Comparison.time_horizon args)) Hb0 Hle).
    nra. }
  split; [exact Hfv |]. split; [rewrite Ga, Gb; lra |].
  rewrite Hc.
  destruct (Py.lt (Comparison.fv_b r) (Comparison.fv_a r)) eqn:E.
  - left. reflexivity.
  - right. apply lt_false_iff in E.
    assert (Heq : Comparison.fv_a r == Comparison.fv_b r) by lra.
    split; [exact Heq |].
    rewrite format_money_zero by lra. reflexivity.
Qed.

Lemma lower_return_never_ahead_witness :
  exists r,
    Comparison.compare_investment_options
      {| Comparison.option_a_name := "Stocks"; Comparison.option_a_return := 9;
         Comparison.option_a_risk := "high";
         Comparison.option_b_name := "Bonds"; Comparison.option_b_return := 4;
         Comparison.option_b_risk := "low";
         Comparison.investment_amount := 5000; Comparison.time_horizon := 10 |}
    = Return r
    /\ Comparison.fv_b r <= Comparison.fv_a r.
Proof.
  destruct (lower_return_never_ahead
              {| Comparison.option_a_name := "Stocks"; Comparison.option_a_return := 9;
                 Comparison.option_a_risk := "high";
                 Comparison.option_b_name := "Bonds"; Comparison.option_b_return := 4;
                 Comparison.option_b_risk := "low";
                 Comparison.investment_amount := 5000;
                 Comparison.time_horizon := 10 |})
    as (r & Hr & Hfv & _).
  - discriminate.
  - discriminate.
  - reflexivity.
  - discriminate.
  - exists r. split; [exact Hr | exact Hfv].
Defined.

(** When neither expected return is below the 2 % risk-free rate, the
    outcome does not depend on which option is listed first: exchanging
    the two options exchanges the future values and leaves the
    recommendation text unchanged, and the comparison line too unless the
    future values are equal. *)
Theorem comparison_order_independent (args : Comparison.ComparisonRequest) :
  2 <= Comparison.option_a_return args ->
  2 <= Comparison.option_b_return args ->
  exists r r',
    Comparison.compare_investment_options args = Return r
    /\ Comparison.compare_investment_options (Derived.swap_options args) = Return r'
    /\ Comparison.fv_a r' = Comparison.fv_b r
    /\ Comparison.fv_b r' = Comparison.fv_a r
    /\ Comparison.recommendation r' = Comparison.recommendation r
    /\ (~ Comparison.fv_a r == Comparison.fv_b r ->
        Comparison.comparison r' = Comparison.comparison r).
Proof.
  intros Ha Hb.
  assert (Hbase : forall q, 2 <= q -> ~ 1 + q / 100 == 0).
  { intros q Hq H.
    setoid_replace (q / 100) with (q * (1 # 100)) in H by field. lra. }
  destruct (compare_fields args) as (r & Hr & Fa & Fb & _ & _ & Sa & Sb & Hc & Hrec).
  { intros _. split; apply Hbase; assumption. }
  destruct (compare_fields (Derived.swap_options args))
    as (r' & Hr' & Fa' & Fb' & _ & _ & Sa' & Sb' & Hc' & Hrec').
  { intros _. cbn. split; apply Hbase; assumption. }
  cbn [Derived.swap_options Comparison.option_a_name Comparison.option_a_return
       Comparison.option_a_risk Comparison.option_b_name Comparison.option_b_return
       Comparison.option_b_risk Comparison.investment_amount Comparison.time_horizon]
    in Fa', Fb', Sa', Sb', Hc', Hrec'.
  exists r, r'. split; [exact Hr |]. split; [exact Hr' |].
  assert (Eab : Comparison.fv_a r' = Comparison.fv_b r) by (rewrite Fa', Fb; reflexivity).
  assert (Eba : Comparison.fv_b r' = Comparison.fv_a r) by (rewrite Fb', Fa; reflexivity).
  split; [exact Eab |]. split; [exact Eba |]. split.
  - rewrite Hrec, Hrec'. rewrite <- Sa, <- Sb.
    assert (Hsa : 0 <= Comparison.risk_adj_return_a r).
    { rewrite Sa. apply Qle_shift_div_l; [apply risk_score_positive | lra]. }
    assert (Hsb : 0 <= Comparison.risk_adj_return_b r).
    { rewrite Sb. apply Qle_shift_div_l; [apply risk_score_positive | lra]. }
    destruct (Py.lt (Comparison.risk_adj_return_a r * (6 # 5))
                    (Comparison.risk_adj_return_b r)) eqn:E1;
      destruct (Py.lt (Comparison.risk_adj_return_b r * (6 # 5))
                      (Comparison.risk_adj_return_a r)) eqn:E2;
      try reflexivity.
    apply lt_true_iff in E1. apply lt_true_iff in E2. exfalso. lra.
  - intro Hne. rewrite Hc, Hc', Eab, Eba.
    destruct (Py.lt (Comparison.fv_b r) (Comparison.fv_a r)) eqn:E1;
      destruct (Py.lt (Comparison.fv_a r) (Comparison.fv_b r)) eqn:E2;
      try reflexivity.
    + apply lt_true_iff in E1. apply lt_true_iff in E2. exfalso. lra.
    + apply lt_false_iff in E1. apply lt_false_iff in E2. exfalso. apply Hne. lra.
Qed.

Lemma comparison_order_independent_witness :
  exists r r',
    Comparison.compare_investment_options
      {| Comparison.option_a_name := "Stocks"; Comparison.option_a_return := 9;
         Comparison.option_a_risk := "high";
         Comparison.option_b_name := "Bonds"; Comparison.option_b_return := 4;
         Comparison.option_b_risk := "low";
         Comparison.investment_amount := 5000; Comparison.time_horizon := 10 |}
    = Return r
    /\ Comparison.compare_investment_options
         {| Comparison.option_a_name := "Bonds"; Comparison.option_a_return := 4;
            Comparison.option_a_risk := "low";
            Comparison.option_b_name := "Stocks"; Comparison.option_b_return := 9;
            Comparison.option_b_risk := "high";
            Comparison.investment_amount := 5000; Comparison.time_horizon := 10 |}
       = Return r'
    /\ Comparison.recommendation r' = Comparison.recommendation r.
Proof.
  destruct (comparison_order_independent
              {| Comparison.option_a_name := "Stocks"; Comparison.option_a_return := 9;
                 Comparison.option_a_risk := "high";
                 Comparison.option_b_name := "Bonds"; Comparison.option_b_return := 4;
                 Comparison.option_b_risk := "low";
                 Comparison.investment_amount := 5000;
                 Comparison.time_horizon := 10 |})
    as (r & r' & Hr & Hr' & _ & _ & Hrec & _).
  - discriminate.
  - discriminate.
  - exists r, r'. split; [exact Hr |]. split; [exact Hr' | exact Hrec].
Defined.

(** * Properties of the advisor agents *)

Lemma string_append_assoc (a b c : string) : ((a ++ b) ++ c = a ++ (b ++ c))%string.
Proof. induction a as [| x a IH]; [reflexivity |]. cbn. rewrite IH. reflexivity. Qed.

Lemma string_append_empty (a : string) : (a ++ "" = a)%string.
Proof. induction a as [| x a IH]; [reflexivity |]. cbn. rewrite IH. reflexivity. Qed.

Lemma add_text_spec (acc : string) (content : list Agent.block) :
  Agent.add_text acc content
  = (acc ++ Agent.message_text (Agent.AssistantMessage content))%string.
Proof.
  revert acc. induction content as [| b content IH]; intro acc.
  - cbn. rewrite string_append_empty. reflexivity.
  - cbn [Agent.message_text map fold_right] in *.
    destruct b; cbn [Agent.add_text Agent.block_text]; rewrite IH;
      rewrite ?string_append_assoc; reflexivity.
Qed.

Lemma add_blocks_spec (show : bool) (acc : string) (printed : list string)
  (content : list Agent.block) :
  Agent.add_blocks show acc printed content
  = (Agent.add_text acc content,
     if show then printed ++ Agent.message_lines (Agent.AssistantMessage content)
     else printed).
Proof.
  revert acc printed. induction content as [| b content IH]; intros acc printed.
  - cbn. destruct show; [rewrite app_nil_r |]; reflexivity.
  - cbn [Agent.message_lines flat_map] in *.
    destruct b; cbn [Agent.add_blocks Agent.add_text Agent.block_lines];
      destruct show; rewrite IH; rewrite <- ?app_assoc; reflexivity.
Qed.

Lemma ask_from_prefix (acc : string) (ms : list Agent.message) (s : Agent.stream) :
  Agent.no_error_result ms ->
  Agent.ask_from acc (Agent.prepend ms s)
  = Agent.ask_from (acc ++ Agent.all_text ms) s.
Proof.
  intro H. revert acc. induction H as [| m ms Hm _ IH]; intro acc.
  - cbn. rewrite string_append_empty. reflexivity.
  - cbn [Agent.prepend Agent.all_text map fold_right].
    fold (Agent.all_text ms).
    destruct m as [content | [] result |]; try discriminate;
      cbn [Agent.ask_from]; rewrite IH.
    + rewrite add_text_spec, string_append_assoc. reflexivity.
    + reflexivity.
    + reflexivity.
Qed.

Lemma ask_advice_from_prefix (acc : string) (ms : list Agent.message) (s : Agent.stream) :
  Agent.no_error_result ms ->
  Agent.ask_advice_from acc (Agent.prepend ms s)
  = Agent.ask_advice_from (acc ++ Agent.all_text ms) s.
Proof.
  intro H. revert acc. induction H as [| m ms Hm _ IH]; intro acc.
  - cbn. rewrite string_append_empty. reflexivity.
  - cbn [Agent.prepend Agent.all_text map fold_right].
    fold (Agent.all_text ms).
    destruct m as [content | [] result |]; try discriminate;
      cbn [Agent.ask_advice_from]; rewrite IH.
    + rewrite add_text_spec, string_append_assoc. reflexivity.
    + reflexivity.
    + reflexivity.
Qed.

Lemma advanced_ask_from_prefix (show : bool) (acc : string) (printed : list string)
  (ms : list Agent.message) (s : Agent.stream) :
  Agent.no_error_result ms ->
  Agent.advanced_ask_from show acc printed (Agent.prepend ms s)
  = Agent.advanced_ask_from show (acc ++ Agent.all_text ms)
      (if show then printed ++ flat_map Agent.message_lines ms else printed) s.
Proof.
  intro H. revert acc printed. induction H as [| m ms Hm _ IH]; intros acc printed.
  - cbn. rewrite string_append_empty. destruct show; [rewrite app_nil_r |]; reflexivity.
  - cbn [Agent.prepend Agent.all_text map fold_right flat_map].
    fold (Agent.all_text ms).
    destruct m as [content | [] result |]; try discriminate;
      cbn [Agent.advanced_ask_from].
    + rewrite add_blocks_spec. cbv iota. rewrite IH, add_text_spec, string_append_assoc.
      destruct show; rewrite <- ?app_assoc; reflexivity.
    + rewrite IH. reflexivity.
    + rewrite IH. reflexivity.
Qed.

(** When the SDK yields messages without an error result and raises
    nothing, every agent returns the text blocks of the assistant messages
    concatenated in order; tool blocks, non-error results and other
    messages add nothing to the text.  The advanced advisor prints one line
    per tool-use and tool-result block, in order, when tool usage is shown,
    and nothing otherwise. *)
Theorem agents_collect_text (self : Agent.advisor) (ms : list Agent.message) :
  Agent.no_error_result ms ->
  Agent.ask_advice (Agent.prepend ms Agent.Done) = Agent.Returns (Agent.all_text ms)
  /\ Agent.ask (Agent.start_conversation self) (Agent.prepend ms Agent.Done)
     = Agent.Returns (Agent.all_text ms)
  /\ Agent.advanced_ask (Agent.start_conversation self)
       (Agent.prepend ms Agent.Done) true
     = (Agent.Returns (Agent.all_text ms), flat_map Agent.message_lines ms)
  /\ Agent.advanced_ask (Agent.start_conversation self)
       (Agent.prepend ms Agent.Done) false
     = (Agent.Returns (Agent.all_text ms), []).
Proof.
  intro H. unfold Agent.ask_advice, Agent.ask, Agent.advanced_ask.
  cbn [Agent.start_conversation Agent.client].
  rewrite ask_advice_from_prefix, ask_from_prefix, !advanced_ask_from_prefix by exact H.
  repeat split.
Qed.

Lemma agents_collect_text_witness :
  Agent.ask (Agent.start_conversation Agent.new_advisor)
    (Agent.Yield (Agent.AssistantMessage
                    [Agent.TextBlock "Diversify. "; Agent.ToolUseBlock "calc";
                     Agent.TextBlock "Start early."])
       (Agent.Yield (Agent.ResultMessage false None) Agent.Done))
  = Agent.Returns "Diversify. Start early."%string.
Proof.
  apply (agents_collect_text Agent.new_advisor
           [Agent.AssistantMessage
              [Agent.TextBlock "Diversify. "; Agent.ToolUseBlock "calc";
               Agent.TextBlock "Start early."];
            Agent.ResultMessage false None]).
  repeat constructor.
Defined.

(** The first error result decides the answer.  Whatever text came before
    it is dropped, whatever follows is never read, and the response is the
    agent's error prefix followed by the result text, or by "Unknown
    error" when the result is missing or empty. *)
Theorem error_result_replaces_response
  (self : Agent.advisor) (ms : list Agent.message) (result : option string)
  (rest : Agent.stream) (show : bool) :
  Agent.no_error_result ms ->
  let s := Agent.prepend ms (Agent.Yield (Agent.ResultMessage true result) rest) in
  Agent.ask_advice s
  = Agent.Returns ("Error occurred: " ++ Agent.or_default result "Unknown error")%string
  /\ Agent.ask (Agent.start_conversation self) s
     = Agent.Returns ("Error: " ++ Agent.or_default result "Unknown error")%string
  /\ fst (Agent.advanced_ask (Agent.start_conversation self) s show)
     = Agent.Returns ("Error: " ++ Agent.or_default result "Unknown error")%string
  /\ Agent.or_default None "Unknown error" = "Unknown error"%string
  /\ Agent.or_default (Some ""%string) "Unknown error" = "Unknown error"%string.
Proof.
  intros H s. unfold s, Agent.ask_advice, Agent.ask, Agent.advanced_ask.
  cbn [Agent.start_conversation Agent.client].
  rewrite ask_advice_from_prefix, ask_from_prefix, advanced_ask_from_prefix by exact H.
  repeat split.
Qed.

Lemma error_result_replaces_response_witness :
  Agent.ask (Agent.start_conversation Agent.new_advisor)
    (Agent.Yield (Agent.AssistantMessage [Agent.TextBlock "Let me check..."])
       (Agent.Yield (Agent.ResultMessage true (Some "rate limit"%string))
          (Agent.Yield (Agent.AssistantMessage [Agent.TextBlock "ignored"])
             Agent.Done)))
  = Agent.Returns "Error: rate limit"%string.
Proof.
  apply (error_result_replaces_response Agent.new_advisor
           [Agent.AssistantMessage [Agent.TextBlock "Let me check..."]]
           (Some "rate limit"%string)
           (Agent.Yield (Agent.AssistantMessage [Agent.TextBlock "ignored"]) Agent.Done)
           true).
  repeat constructor.
Defined.

(** An exception raised by the SDK while the response is read never
    reaches the caller: the text received so far is dropped and an error
    string is returned instead.  The two conversational advisors report
    [str(e)] behind their prefix; the basic agent has one message per
    exception class. *)
Theorem sdk_exception_becomes_response
  (self : Agent.advisor) (ms : list Agent.message) (e : Agent.exception) (show : bool) :
  Agent.no_error_result ms ->
  let s := Agent.prepend ms (Agent.Throw (Agent.An e)) in
  Agent.ask (Agent.start_conversation self) s
  = Agent.Returns ("Error during conversation: " ++ Agent.str e)%string
  /\ fst (Agent.advanced_ask (Agent.start_conversation self) s show)
     = Agent.Returns ("Error: " ++ Agent.str e)%string
  /\ Agent.ask_advice s
     = Agent.Returns
         match e with
         | Agent.CLINotFoundError _ =>
             "Error: Claude Code CLI not found. Please install it with: npm install -g @anthropic-ai/claude-code"
         | Agent.ProcessError _ exit_code stderr =>
             "Process error: " ++ Agent.format_optional_int exit_code ++ " - "
               ++ Agent.format_optional_str stderr
         | Agent.CLIJSONDecodeError _ line => "Failed to parse response: " ++ line
         | Agent.OtherException msg => "Unexpected error: " ++ msg
         end%string.
Proof.
  intros H s. unfold s, Agent.ask_advice, Agent.ask, Agent.advanced_ask.
  cbn [Agent.start_conversation Agent.client].
  rewrite ask_advice_from_prefix, ask_from_prefix, advanced_ask_from_prefix by exact H.
  destruct e; repeat split.
Qed.

Lemma sdk_exception_becomes_response_witness :
  Agent.ask_advice
    (Agent.Yield (Agent.AssistantMessage [Agent.TextBlock "Thinking"])
       (Agent.Throw (Agent.An (Agent.ProcessError "failed" (Some (-9)%Z) None))))
  = Agent.Returns "Process error: -9 - None"%string.
Proof.
  apply (sdk_exception_becomes_response Agent.new_advisor
           [Agent.AssistantMessage [Agent.TextBlock "Thinking"]]
           (Agent.ProcessError "failed" (Some (-9)%Z) None) true).
  repeat constructor.
Defined.



Lemma advanced_ask_from_show (acc : string) (printed : list string) (s : Agent.stream) :
  fst (Agent.advanced_ask_from true acc printed s)
  = fst (Agent.advanced_ask_from false acc [] s)
  /\ snd (Agent.advanced_ask_from false acc [] s) = [].
Proof.
  revert acc printed. induction s as [| m s IH | r]; intros acc printed.
  - split; reflexivity.
  - destruct m as [content | [] result |]; cbn [Agent.advanced_ask_from].
    + rewrite !add_blocks_spec. cbv iota. apply IH.
    + split; reflexivity.
    + apply IH.
    + apply IH.
  - destruct r; split; reflexivity.
Qed.

(** Showing tool usage changes what is printed, never the answer: with
    and without it the advanced advisor returns the same response, and
    without it nothing is printed. *)
Theorem tool_reporting_keeps_answer (self : Agent.advisor) (s : Agent.stream) :
  fst (Agent.advanced_ask self s true) = fst (Agent.advanced_ask self s false)
  /\ snd (Agent.advanced_ask self s false) = [].
Proof.
  unfold Agent.advanced_ask. destruct (Agent.client self).
  - apply advanced_ask_from_show.
  - split; reflexivity.
Qed.


(** * Properties of the model choice *)

Lemma ascii_compare_lt_trans (a b c : ascii) :
  Ascii.compare a b = Lt -> Ascii.compare b c = Lt -> Ascii.compare a c = Lt.
Proof.
  unfold Ascii.compare. rewrite !N.compare_lt_iff. lia.
Qed.

Lemma string_compare_lt_trans (a b c : string) :
  String.compare a b = Lt -> String.compare b c = Lt -> String.compare a c = Lt.
Proof.
  revert b c. induction a as [| x a IH]; intros [| y b] [| z c]; cbn;
    try discriminate; try reflexivity.
  destruct (Ascii.compare x y) eqn:Exy; try discriminate;
    destruct (Ascii.compare y z) eqn:Eyz; try discriminate; intros H1 H2.
  - apply Ascii.compare_eq_iff in Exy, Eyz. subst.
    assert (E : Ascii.compare z z = Eq) by (unfold Ascii.compare; apply N.compare_refl).
    rewrite E. exact (IH _ _ H1 H2).
  - apply Ascii.compare_eq_iff in Exy. subst. rewrite Eyz. reflexivity.
  - apply Ascii.compare_eq_iff in Eyz. subst. rewrite Exy. reflexivity.
  - rewrite (ascii_compare_lt_trans _ _ _ Exy Eyz). reflexivity.
Qed.

Lemma string_leb_trans (a b c : string) :
  String.leb a b = true -> String.leb b c = true -> String.leb a c = true.
Proof.
  unfold String.leb. intros H1 H2.
  destruct (String.compare a b) eqn:Eab.
  - apply String.compare_eq_iff in Eab. subst. exact H2.
  - destruct (String.compare b c) eqn:Ebc.
    + apply String.compare_eq_iff in Ebc. subst. rewrite Eab. reflexivity.
    + rewrite (string_compare_lt_trans _ _ _ Eab Ebc). reflexivity.
    + discriminate.
  - discriminate.
Qed.

Lemma string_leb_refl (a : string) : String.leb a a = true.
Proof. destruct (String.leb_total a a); assumption. Qed.

Lemma max_str_spec (x : string) (rest : list string) :
  In (ModelChoice.max_str x rest) (x :: rest)
  /\ forall y, In y (x :: rest) -> String.leb y (ModelChoice.max_str x rest) = true.
Proof.
  unfold ModelChoice.max_str. revert x.
  induction rest as [| z rest IH]; intro x.
  - cbn. split; [left; reflexivity |]. intros y [<- | []]. apply string_leb_refl.
  - cbn [fold_left].
    destruct (String.ltb x z) eqn:E.
    + destruct (IH z) as [Hin Hle]. split.
      * destruct Hin as [<- | Hin]; [right; left; reflexivity | right; right; exact Hin].
      * intros y [<- | Hy]; [| apply Hle; exact Hy].
        apply (string_leb_trans _ z); [| apply Hle; left; reflexivity].
        unfold String.ltb in E. unfold String.leb.
        destruct (String.compare x z); try discriminate; reflexivity.
    + destruct (IH x) as [Hin Hle]. split.
      * destruct Hin as [<- | Hin]; [left; reflexivity | right; right; exact Hin].
      * intros y [<- | [<- | Hy]].
        -- apply Hle. left. reflexivity.
        -- apply (string_leb_trans _ x); [| apply Hle; left; reflexivity].
           unfold String.ltb in E. unfold String.leb.
           rewrite String.compare_antisym.
           destruct (String.compare x z); try discriminate; reflexivity.
        -- apply Hle. right. exact Hy.
Qed.

(** The script falls back to its fixed id when the listing fails or lists
    no id containing "sonnet" (in any case).  Otherwise it selects one of
    the listed "sonnet" ids, and that id is the greatest of them in
    lexicographic order, not necessarily the one with the latest date:
    from claude-3-5-sonnet-20241022 and claude-3-sonnet-20240229 it selects
    the older claude-3-sonnet-20240229. *)
Theorem model_choice :
  ModelChoice.selected_model None = ModelChoice.fallback
  /\ (forall ids, ModelChoice.sonnet_models ids = [] ->
        ModelChoice.selected_model (Some ids) = ModelChoice.fallback)
  /\ (forall ids, ModelChoice.sonnet_models ids <> [] ->
        In (ModelChoice.selected_model (Some ids)) ids
        /\ ModelChoice.contains "sonnet"
             (Py.lower (ModelChoice.selected_model (Some ids))) = true
        /\ forall model_id,
             In model_id ids ->
             ModelChoice.contains "sonnet" (Py.lower model_id) = true ->
             String.leb model_id (ModelChoice.selected_model (Some ids)) = true)
  /\ ModelChoice.selected_model
       (Some ["claude-opus-4-20250514"; "claude-3-5-sonnet-20241022";
              "claude-3-sonnet-20240229"; "claude-3-haiku-20240307"]%string)
     = "claude-3-sonnet-20240229"%string.
Proof.
  split; [reflexivity |].
  split; [intros ids H; unfold ModelChoice.selected_model; rewrite H; reflexivity |].
  split; [| reflexivity].
  intros ids Hne. unfold ModelChoice.selected_model.
  destruct (ModelChoice.sonnet_models ids) as [| x rest] eqn:E; [congruence |].
  destruct (max_str_spec x rest) as [Hin Hle].
  rewrite <- E in Hin. unfold ModelChoice.sonnet_models in Hin.
  apply filter_In in Hin. destruct Hin as [Hin Hson].
  split; [exact Hin |]. split; [exact Hson |].
  intros model_id Hid Hs. apply Hle. rewrite <- E.
  unfold ModelChoice.sonnet_models. apply filter_In. split; assumption.
Qed.

Lemma model_choice_witness :
  In (ModelChoice.selected_model
        (Some ["claude-opus-4-20250514"; "claude-sonnet-4-5-20250929";
               "Claude-Sonnet-4-20250514"]%string))
     ["claude-opus-4-20250514"; "claude-sonnet-4-5-20250929";
      "Claude-Sonnet-4-20250514"]%string.
Proof.
  apply (proj1 (proj2 (proj2 model_choice)) 
           ["claude-opus-4-20250514"; "claude-sonnet-4-5-20250929";
            "Claude-Sonnet-4-20250514"]%string).
  discriminate.
Defined.
